(** * Pat-Vara: the VARA modem client, its event loop and its data stream

    A shallow embedding of [vara/vara.go] (the session: [Modem],
    [writeCmd], [cmdListen], [handleConnect], [handleDisconnect]) and of
    [vara/conn.go] (the stream handed to clients: [Flush], [Close], [Read],
    [Write]), with the properties the specification states about them.

    Conventions of the model.

    - Go's [int] is a 64-bit two's complement integer; arithmetic on it is
      written with its wrap-around ([GoInt.wrap]).
    - Instants and durations are integers counting nanoseconds, the unit
      of [time.Duration].  A call starts at an instant [now]; the
      statements of a call take no time, only its blocking points do.
    - What a goroutine finds on a channel it receives from is given as the
      list of the deliveries made to it, each with the instant it is made:
      finitely many, after which nothing is delivered (the empty list is a
      channel nothing is ever delivered on).  A statement about a call is
      therefore about the runs in which the deliveries come to an end.
      [Flush] and the throttle of [Write] restart their timer on every
      report and go on as long as reports keep coming; this is stated of
      every number of reports ([keepFlushing], [keepThrottled]), and no
      statement says that they return whatever is delivered.
    - A blocking call yields [Returned r] or [Blocked], the latter when it
      waits for ever on the given deliveries.
    - The fields of a connection are read where the source reads them, on
      the value the call is given; other goroutines act on a call through
      the deliveries only.
    - The debug output of [Flush], [Read] and [Write] is left out; that of
      the session and of [Close], which pass the modem on, is kept. *)

From Stdlib Require Import ZArith List String Ascii Bool Lia.
From Stdlib.Strings Require Byte.
Import ListNotations.
Open Scope string_scope.
Open Scope Z_scope.

(** ** Go integers *)

Module GoInt.

Definition max_int : Z := 2 ^ 63 - 1.
Definition min_int : Z := - 2 ^ 63.

(** The value an [int] holds after an operation whose exact result is [z]. *)
Definition wrap (z : Z) : Z := (z + 2 ^ 63) mod 2 ^ 64 - 2 ^ 63.

Definition add (a b : Z) : Z := wrap (a + b).
Definition mul (a b : Z) : Z := wrap (a * b).

(** [len(b)] *)
Definition len {A : Type} (b : list A) : Z := Z.of_nat (List.length b).

(** The runtime of a 64-bit platform does not allocate an object of more
    than [2^48] bytes, which bounds the length of every byte slice. *)
Definition maxAlloc : Z := 2 ^ 48.

End GoInt.

(** ** Time *)

Module Clock.

(** [time.Second] and [time.Minute], in nanoseconds. *)
Definition Second : Z := 1000000000.
Definition Minute : Z := 60 * Second.

End Clock.

(** ** Channels and [select] *)

Module Chan.

(** What a receive [x, ok := <-ch] yields: a value, or the closed channel. *)
Inductive delivery (A : Type) : Type :=
| Msg (x : A)
| Closed.
Arguments Msg {A} x.
Arguments Closed {A}.

(** A delivery to come.  [at_] is the instant it is made; [tie_recv]
    tells which case a [select] takes when this delivery and the timer
    of the [select] are ready at the same instant (the language leaves
    the choice to chance). *)
Record arrival (A : Type) : Type := mkArrival {
  at_ : Z;
  what : delivery A;
  tie_recv : bool
}.
Arguments mkArrival {A} at_ what tie_recv.
Arguments at_ {A} a.
Arguments what {A} a.
Arguments tie_recv {A} a.

(** The instant a receive that starts at [now] gets the delivery. *)
Definition ready_at {A : Type} (now : Z) (a : arrival A) : Z :=
  Z.max now (at_ a).

(** [select { case <-ch: ...; case <-timer.C: ... }] entered at [now] with
    the timer due at [deadline] and [a] the next delivery on [ch]: does it
    take the receive? *)
Definition takes_recv {A : Type} (now deadline : Z) (a : arrival A) : bool :=
  (ready_at now a <? deadline)
  || ((ready_at now a =? deadline) && tie_recv a).

(** The instant the timer case is taken. *)
Definition fires_at (now deadline : Z) : Z := Z.max now deadline.

End Chan.

Import Chan.

(** ** Results of calls *)

(** The error values the two files return. *)
Inductive error : Type :=
| EOF                      (* io.EOF *)
| ErrFlushTimeout          (* "flush: buffer timeout" *)
| ErrWriteTimeout          (* "write: buffer timeout" *)
| ErrDisconnectTimeout     (* "disconnect timeout - connection aborted" *)
| EINVAL                   (* a method of a nil *net.TCPConn *)
| ErrIO (msg : string).    (* whatever else the transport reports *)

(** Go's [error]: [None] is [nil]. *)
Definition goerror : Type := option error.

Inductive ret (A : Type) : Type :=
| Returned (r : A)
| Blocked.
Arguments Returned {A} r.
Arguments Blocked {A}.

(** ** The session: [vara/vara.go] *)

(** [type connectedState int], with its two constants. *)
Inductive connectedState : Type :=
| connected
| disconnected.

Definition connectedState_eqb (a b : connectedState) : bool :=
  match a, b with
  | connected, connected => true
  | disconnected, disconnected => true
  | _, _ => false
  end.

(** An open [*net.TCPConn], as far as the session makes use of it: what has
    been written to it so far, one entry per [Write], and whether the
    transport has failed (its peer is gone); a write on a port that is down
    stands for one that fails before it sends anything.  The nil pointer is
    [None]. *)
Record TCPConn : Type := mkTCP {
  written : list (list Byte.byte);
  down : bool
}.

Definition fresh_tcp : TCPConn := mkTCP [] false.

(** A write on a port.  The nil port is given the error [EINVAL], the
    answer of [net] for a connection that is not valid; a call through the
    nil pointer itself does not return in Go, and the session keeps from
    it: [Close] of [Modem] tests the port first, and the ports become nil
    in [handleDisconnect] only. *)
Definition tcp_write (c : option TCPConn) (b : list Byte.byte)
  : goerror * option TCPConn :=
  match c with
  | None => (Some EINVAL, None)
  | Some t =>
      if down t then (Some (ErrIO "write: broken pipe"), Some t)
      else (None, Some (mkTCP (written t ++ [b])%list (down t)))
  end.

(** [struct Modem].  [config] is left out (only [connectTCP] reads it).
    [rig], when present, is given by the calls of [SetPTT] it has received.
    [connectChange] is a channel of capacity one, given by what it holds.
    The last three fields are those [conn.go] reads through the embedded
    [*Modem] and that the declaration in [vara.go] does not list;
    [connState] stands for the field [conn.go] names [connectedState] (the
    type has that name here).  [debug] and [logged] are the package's
    [debug] flag and what the process has logged. *)
Record Modem : Type := mkModem {
  myCall : string;
  cmdConn : option TCPConn;
  dataConn : option TCPConn;
  toCall : string;
  busy : bool;
  connectChange : list connectedState;
  lastState : connectedState;
  rig : option (list bool);
  connState : connectedState;
  closed : bool;
  bufferCount : Z;
  debug : bool;
  logged : list string
}.

Definition set_cmdConn (c : option TCPConn) (m : Modem) : Modem :=
  mkModem (myCall m) c (dataConn m) (toCall m) (busy m) (connectChange m)
          (lastState m) (rig m) (connState m) (closed m) (bufferCount m)
          (debug m) (logged m).

Definition set_dataConn (c : option TCPConn) (m : Modem) : Modem :=
  mkModem (myCall m) (cmdConn m) c (toCall m) (busy m) (connectChange m)
          (lastState m) (rig m) (connState m) (closed m) (bufferCount m)
          (debug m) (logged m).

Definition set_busy (b : bool) (m : Modem) : Modem :=
  mkModem (myCall m) (cmdConn m) (dataConn m) (toCall m) b (connectChange m)
          (lastState m) (rig m) (connState m) (closed m) (bufferCount m)
          (debug m) (logged m).

Definition set_connectChange (q : list connectedState) (m : Modem) : Modem :=
  mkModem (myCall m) (cmdConn m) (dataConn m) (toCall m) (busy m) q
          (lastState m) (rig m) (connState m) (closed m) (bufferCount m)
          (debug m) (logged m).

Definition set_lastState (s : connectedState) (m : Modem) : Modem :=
  mkModem (myCall m) (cmdConn m) (dataConn m) (toCall m) (busy m)
          (connectChange m) s (rig m) (connState m) (closed m) (bufferCount m)
          (debug m) (logged m).

Definition set_rig (r : option (list bool)) (m : Modem) : Modem :=
  mkModem (myCall m) (cmdConn m) (dataConn m) (toCall m) (busy m)
          (connectChange m) (lastState m) r (connState m) (closed m)
          (bufferCount m) (debug m) (logged m).

Definition set_connState (s : connectedState) (m : Modem) : Modem :=
  mkModem (myCall m) (cmdConn m) (dataConn m) (toCall m) (busy m)
          (connectChange m) (lastState m) (rig m) s (closed m) (bufferCount m)
          (debug m) (logged m).

Definition set_bufferCount (n : Z) (m : Modem) : Modem :=
  mkModem (myCall m) (cmdConn m) (dataConn m) (toCall m) (busy m)
          (connectChange m) (lastState m) (rig m) (connState m) (closed m) n
          (debug m) (logged m).

Definition set_logged (l : list string) (m : Modem) : Modem :=
  mkModem (myCall m) (cmdConn m) (dataConn m) (toCall m) (busy m)
          (connectChange m) (lastState m) (rig m) (connState m) (closed m)
          (bufferCount m) (debug m) l.

(** [NewModem], without the merge of the configuration. *)
Definition NewModem (call : string) (dbg : bool) : Modem :=
  mkModem call None None "" false [] disconnected None
          disconnected false 0 dbg [].

(** [log.Print] and [debugPrint]. *)
Definition logPrint (msg : string) (m : Modem) : Modem :=
  set_logged (logged m ++ [msg])%list m.

Definition debugPrint (msg : string) (m : Modem) : Modem :=
  if debug m then logPrint msg m else m.

(** [disconnectTCP]: closes the port, if any, and yields the nil pointer.
    The first component is the caller's state after the call. *)
Definition disconnectTCP (name : string) (port : option TCPConn) (m : Modem)
  : Modem * option TCPConn :=
  match port with
  | None => (m, None)
  | Some _ => (debugPrint ("disonnected " ++ name) m, None)
  end.

Definition CR : string := String (ascii_of_nat 13) "".

(** [writeCmd]: a wrapper around [m.cmdConn.Write]. *)
Definition writeCmd (cmd : string) (m : Modem) : goerror * Modem :=
  let m1 := debugPrint ("writing cmd: " ++ cmd) m in
  let '(err, c) := tcp_write (cmdConn m1) (list_byte_of_string (cmd ++ CR)) in
  (err, set_cmdConn c m1).

(** A send on a channel of capacity [cap] nobody is receiving from: it goes
    through when there is room, and waits otherwise. *)
Definition chan_send {A : Type} (cap : nat) (q : list A) (x : A)
  : option (list A) :=
  if (List.length q <? cap)%nat then Some (q ++ [x])%list else None.

(** A handler of the loop either completes or is left waiting in a send. *)
Inductive handled : Type :=
| Done (m : Modem)
| Sending (m : Modem).

(** [handleConnect] *)
Definition handleConnect (m : Modem) : handled :=
  let m1 := set_lastState connected m in
  match chan_send 1 (connectChange m1) connected with
  | None => Sending m1
  | Some q => Done (set_connectChange q m1)
  end.

(** [handleDisconnect] *)
Definition handleDisconnect (m : Modem) : handled :=
  let m1 := set_lastState disconnected m in
  match chan_send 1 (connectChange m1) disconnected with
  | None => Sending m1
  | Some q =>
      let m2 := set_connectChange q m1 in
      (* Close data port TCP connection *)
      let '(m3, d) := disconnectTCP "data" (dataConn m2) m2 in
      let m4 := set_dataConn d m3 in
      (* Close command port TCP connection *)
      let '(m5, c) := disconnectTCP "cmd" (cmdConn m4) m4 in
      Done (set_cmdConn c m5)
  end.

(** [m.rig.SetPTT(on)], when there is a rig; its result is dropped. *)
Definition setPTT (on : bool) (m : Modem) : Modem :=
  match rig m with
  | None => m
  | Some calls => set_rig (Some (calls ++ [on])%list) m
  end.

(** [strings.Split(s, "\r")] *)
Fixpoint splitCR (s : string) : list string :=
  match s with
  | EmptyString => [""]
  | String c r =>
      if Ascii.eqb c (ascii_of_nat 13) then "" :: splitCR r
      else match splitCR r with
           | [] => [String c ""]
           | h :: t => String c h :: t
           end
  end.

(** What the body of [for _, c := range cmds] does with one record. *)
Inductive outcome : Type :=
| Next (m : Modem)       (* on to the next record *)
| Return (m : Modem)     (* [return]: the loop is over *)
| Waiting (m : Modem).   (* left in a send on [connectChange] *)

(** The body of the inner loop of [cmdListen]: one record. *)
Definition handleCmd (c : string) (m : Modem) : outcome :=
  if String.eqb c "" then Next m
  else
    let m := debugPrint ("got cmd: " ++ c) m in
    if String.eqb c "PTT ON" then Next (setPTT true m)
    else if String.eqb c "PTT OFF" then Next (setPTT false m)
    else if String.eqb c "BUSY ON" then Next (set_busy true m)
    else if String.eqb c "BUSY OFF" then Next (set_busy false m)
    else if String.eqb c "OK" then Next m
    else if String.eqb c "IAMALIVE" then Next m
    else if String.eqb c "DISCONNECTED" then
      match handleDisconnect m with
      | Done m' => Return m'
      | Sending m' => Waiting m'
      end
    else if prefix "CONNECTED" c then
      match handleConnect m with
      | Done m' => Next m'
      | Sending m' => Waiting m'
      end
    else if prefix "BUFFER" c then Next m
    else Next (logPrint ("got a vara command I wasn't expecting: " ++ c) m).

(** The inner loop: the records of one read, in order. *)
Fixpoint handleCmds (cmds : list string) (m : Modem) : outcome :=
  match cmds with
  | [] => Next m
  | c :: rest =>
      match handleCmd c m with
      | Next m' => handleCmds rest m'
      | stop => stop
      end
  end.

(** What one [m.cmdConn.Read(buf)] yields: the bytes read, or an error. *)
Inductive readResult : Type :=
| ReadOk (data : string)
| ReadErr (msg : string).

(** Where [cmdListen] is once the given reads are used up. *)
Inductive loopStatus : Type :=
| ExitedNilConn          (* returned: [m.cmdConn == nil] *)
| ExitedDisconnected     (* returned after [handleDisconnect] *)
| InRead                 (* in [m.cmdConn.Read], no more input given *)
| InSend.                (* in a send on [connectChange] *)

(** [cmdListen], over the results of the reads of the command port to
    come. *)
Fixpoint cmdListen (reads : list readResult) (m : Modem) : loopStatus * Modem :=
  match cmdConn m with
  | None => (ExitedNilConn, m)
  | Some _ =>
      match reads with
      | [] => (InRead, m)
      | ReadErr e :: rest =>
          cmdListen rest (debugPrint ("cmdListen err: " ++ e) m)
      | ReadOk data :: rest =>
          match handleCmds (splitCR data) m with
          | Next m' => cmdListen rest m'
          | Return m' => (ExitedDisconnected, m')
          | Waiting m' => (InSend, m')
          end
      end
  end.

(** ** The stream: [vara/conn.go] *)

(** [struct conn].  [modem] is the embedded [*Modem]; [closeOnce] tells
    whether the [sync.Once] has run its function. *)
Record conn : Type := mkConn {
  modem : Modem;
  remoteCall : string;
  closeOnce : bool;
  closing : bool
}.

Definition set_modem (m : Modem) (v : conn) : conn :=
  mkConn m (remoteCall v) (closeOnce v) (closing v).

Definition set_closeOnce (b : bool) (v : conn) : conn :=
  mkConn (modem v) (remoteCall v) b (closing v).

Definition set_closing (b : bool) (v : conn) : conn :=
  mkConn (modem v) (remoteCall v) (closeOnce v) b.

(** The count a connection is given. *)
Definition withCount (n : Z) (v : conn) : conn :=
  set_modem (set_bufferCount n (modem v)) v.

(** [newConn], without the reset of the deadlines of the data port. *)
Definition newConn (m : Modem) (remote : string) : conn :=
  mkConn m remote false false.

(** [v.connectedState != connected] *)
Definition notConnected (v : conn) : bool :=
  negb (connectedState_eqb (connState (modem v)) connected).

(** Modelled from the spec: the subscription [v.cmds.Subscribe(...)] and the
    value a delivery is compared with under the name [disconnected]; the bus
    [cmds] is not part of the sources at hand.  Following sections 4.1 and 6
    of the specification, a subscriber is delivered the records of the
    command port it asked for, as the loop read them, and the record of a
    connection loss is the token DISCONNECTED. *)
Definition disconnectedCmd : string := "DISCONNECTED".

Definition inbox : Type := list (arrival string).

(** What a call does to the objects it shares with other goroutines, in the
    order it does it. *)
Inductive op : Type :=
| Incr (n : Z)                          (* [v.bufferCount.incr(n)] *)
| DataWrite (b : list Byte.byte)        (* [v.dataConn.Write(b)] *)
| DataRead                              (* [v.dataConn.Read(b)] *)
| SetReadDeadline (t : option Z).       (* [None]: no deadline *)

(** A call of the stream: its result, what it did, the instant it returned
    (for a call that waits for ever, the instant of its last wake-up), and
    the deliveries it left on its subscription. *)
Record call (R : Type) : Type := mkCall {
  result : ret R;
  ops : list op;
  ended : Z;
  pending : inbox
}.
Arguments mkCall {R} result ops ended pending.
Arguments result {R} c.
Arguments ops {R} c.
Arguments ended {R} c.
Arguments pending {R} c.

(** ** The Buffer Counter *)

(** Modelled from the spec: the counter behind the field [bufferCount], of
    which the sources at hand hold the calls [get] and [incr] and not the
    declaration.  Sections 2 and 3: an integer counter, increased by the
    byte length of a local write.  It is an [int], as [TxBufferLen] returns
    it.  Nothing in the sources at hand sets it. *)
Module BufferCounter.

Definition get (c : Z) : Z := c.
Definition incr (n : Z) (c : Z) : Z := GoInt.add c n.

End BufferCounter.

Definition magicNumber : Z := 7.

Section Stream.

(** [parseBuffer], which reads the count of a BUFFER record; it is not
    part of the sources at hand and the stream is modelled for any such
    function. *)
Variable parseBuffer : string -> Z.

(** *** Flush *)

(** The loop [for count > 0 { select ... }] of [Flush], entered at [now]
    with the timer due at [deadline]. *)
Fixpoint flushLoop (count now deadline : Z) (cmds : inbox) {struct cmds}
  : call goerror :=
  if 0 <? count then
    match cmds with
    | [] => mkCall (Returned (Some ErrFlushTimeout)) []
                   (fires_at now deadline) []
    | a :: rest =>
        if takes_recv now deadline a then
          let t := ready_at now a in
          match what a with
          | Closed => mkCall (Returned (Some EOF)) [] t rest
          | Msg cmd =>
              if String.eqb cmd disconnectedCmd
              then mkCall (Returned (Some EOF)) [] t rest
              else flushLoop (parseBuffer cmd) t (t + Clock.Minute) rest
          end
        else mkCall (Returned (Some ErrFlushTimeout)) []
                    (fires_at now deadline) cmds
    end
  else mkCall (Returned None) [] now cmds.

(** [Flush] blocks until the modem's TX buffer is empty. *)
Definition Flush (v : conn) (now : Z) (cmds : inbox) : call goerror :=
  if closing v then mkCall (Returned None) [] now cmds
  else flushLoop (BufferCounter.get (bufferCount (modem v))) now
                 (now + Clock.Minute) cmds.

(** A report [Flush] takes and that leaves bytes in the buffer. *)
Definition busyReport (a : arrival string) : Prop :=
  exists c, what a = Msg c /\ c <> disconnectedCmd /\ 0 < parseBuffer c.

(** Reports that keep [Flush] waiting: each one is delivered less than a
    minute after the call or the delivery before it, and leaves bytes in
    the buffer. *)
Fixpoint keepFlushing (now : Z) (cmds : inbox) : Prop :=
  match cmds with
  | [] => True
  | a :: rest =>
      at_ a < now + Clock.Minute /\ busyReport a
      /\ keepFlushing (ready_at now a) rest
  end.

(** *** Write *)

(** How the throttling loop of [Write] ends. *)
Inductive throttled : Type :=
| Proceed (bufferCount now : Z) (cmds : inbox)
| Failed (e : error) (now : Z) (cmds : inbox).

(** The loop [for bufferCount >= magicNumber*len(b) && !v.closing]. *)
Fixpoint throttle (v : conn) (b : list Byte.byte)
         (count now deadline : Z) (cmds : inbox) {struct cmds} : throttled :=
  if (count >=? GoInt.mul magicNumber (GoInt.len b)) && negb (closing v) then
    match cmds with
    | [] => Failed ErrWriteTimeout (fires_at now deadline) []
    | a :: rest =>
        if takes_recv now deadline a then
          let t := ready_at now a in
          match what a with
          | Closed => Failed EOF t rest
          | Msg cmd =>
              if String.eqb cmd disconnectedCmd then Failed EOF t rest
              else throttle v b (parseBuffer cmd) t (t + Clock.Minute) rest
          end
        else Failed ErrWriteTimeout (fires_at now deadline) cmds
    end
  else Proceed count now cmds.

(** A report the loop takes and that leaves the count at or above the
    threshold. *)
Definition staleReport (b : list Byte.byte) (a : arrival string) : Prop :=
  exists c, what a = Msg c /\ c <> disconnectedCmd
            /\ 7 * GoInt.len b <= parseBuffer c.

(** Reports that keep the throttle of [Write] waiting: each one is
    delivered less than a minute after the call or the delivery before it,
    and leaves the count at or above the threshold. *)
Fixpoint keepThrottled (b : list Byte.byte) (now : Z) (cmds : inbox) : Prop :=
  match cmds with
  | [] => True
  | a :: rest =>
      at_ a < now + Clock.Minute /\ staleReport b a
      /\ keepThrottled b (ready_at now a) rest
  end.

(** The loop [for cmd := range cmds] that waits for the disconnect to
    complete: the instant it ends and what it leaves, or [None] when it
    never ends. *)
Fixpoint awaitDisconnect (now : Z) (cmds : inbox) : option (Z * inbox) :=
  match cmds with
  | [] => None
  | a :: rest =>
      let t := ready_at now a in
      match what a with
      | Closed => Some (t, rest)
      | Msg cmd =>
          if String.eqb cmd disconnectedCmd then Some (t, rest)
          else awaitDisconnect t rest
      end
  end.

(** [Write].  [io] is what the underlying [v.dataConn.Write(b)] answers
    when it is reached. *)
Definition Write (v : conn) (b : list Byte.byte) (now : Z) (cmds : inbox)
           (io : Z * goerror) : call (Z * goerror) :=
  if notConnected v then mkCall (Returned (0, Some EOF)) [] now cmds
  else
    match throttle v b (BufferCounter.get (bufferCount (modem v))) now
                   (now + Clock.Minute) cmds with
    | Failed e t rest => mkCall (Returned (0, Some e)) [] t rest
    | Proceed _ t rest =>
        if closing v && negb (notConnected v) then
          match awaitDisconnect t rest with
          | Some (t', rest') => mkCall (Returned (0, Some EOF)) [] t' rest'
          | None => mkCall Blocked [] t []
          end
        else
          (* Modem is ready to receive more data *)
          mkCall (Returned io) [Incr (GoInt.len b); DataWrite b] t rest
    end.

End Stream.

(** A delivery that is a record other than the disconnect. *)
Definition otherRecord (a : arrival string) : Prop :=
  exists c, what a = Msg c /\ c <> disconnectedCmd.

(** The disconnect, or the end of the subscription. *)
Definition terminal (a : arrival string) : Prop :=
  what a = Msg disconnectedCmd \/ what a = Closed.

(** The instant a goroutine that starts receiving at [now] has received all
    of [pre]. *)
Definition wokenAt (now : Z) (pre : inbox) : Z := fold_left ready_at pre now.

(** *** Read *)

(** The read of the data port the goroutine of [Read] makes: the instant it
    completes, what it yields, and whether [select] takes it when a delivery
    of the subscription is ready at the same instant. *)
Record dataRead : Type := mkDataRead {
  done_at : Z;
  yields : Z * goerror;
  wins_tie : bool
}.

(** [Read].  [io] is the underlying read, [None] when it never completes. *)
Definition Read (v : conn) (now : Z) (connectChange : inbox)
           (io : option dataRead) : call (Z * goerror) :=
  if notConnected v then mkCall (Returned (0, Some EOF)) [] now connectChange
  else
    let started := [SetReadDeadline None; DataRead] in
    let lost (a : arrival string) (rest : inbox) :=
      let t := ready_at now a in
      mkCall (Returned (0, Some EOF))
             (started ++ [SetReadDeadline (Some t)])%list t rest in
    match io, connectChange with
    | None, [] => mkCall Blocked started now []
    | Some r, [] => mkCall (Returned (yields r)) started (Z.max now (done_at r)) []
    | None, a :: rest => lost a rest
    | Some r, a :: rest =>
        let tr := Z.max now (done_at r) in
        let ta := ready_at now a in
        if (tr <? ta) || ((tr =? ta) && wins_tie r)
        then mkCall (Returned (yields r)) started tr connectChange
        else lost a rest
    end.

(** *** Close *)

(** Modelled from the spec: [Abort], which [Close] calls on a timeout and
    which is not part of the sources at hand.  Section 4.6: on timeout,
    force-abort the session (send an abort command / tear down immediately);
    section 8: the session is forced into the disconnected state
    regardless. *)
Definition Abort (m : Modem) : goerror * Modem :=
  let '(err, m1) := writeCmd "ABORT" m in
  (err, set_connState disconnected (set_lastState disconnected m1)).

(** The function [Close] hands to [closeOnce.Do]; [err] is assigned only on
    the paths that reach the [select]. *)
Definition closeBody (v : conn) (now : Z) (connectChange : inbox)
  : call goerror * conn :=
  if closed (modem v) then (mkCall (Returned None) [] now connectChange, v)
  else
    let v := set_closing true v in
    if connectedState_eqb (connState (modem v)) disconnected then
      (* Connection is already closed. *)
      (mkCall (Returned None) [] now connectChange, v)
    else
      let v := set_modem (snd (writeCmd "DISCONNECT" (modem v))) v in
      let deadline := now + 60 * Clock.Second in
      let timeout (left : inbox) :=
        let m := debugPrint "disconnect timeout - aborting connection" (modem v) in
        (mkCall (Returned (Some ErrDisconnectTimeout)) []
                (fires_at now deadline) left,
         set_modem (snd (Abort m)) v) in
      match connectChange with
      | [] => timeout []
      | a :: rest =>
          if takes_recv now deadline a
          then (mkCall (Returned None) [] (ready_at now a) rest, v)
          else timeout connectChange
      end.

(** [Close].  A call that finds the [sync.Once] done returns its own [err],
    which nothing has assigned. *)
Definition Close (v : conn) (now : Z) (connectChange : inbox)
  : call goerror * conn :=
  if closeOnce v then (mkCall (Returned None) [] now connectChange, v)
  else
    let '(c, v') := closeBody v now connectChange in
    (c, set_closeOnce true v').

(** The commands written so far on the command port of a modem. *)
Definition sentCmds (m : Modem) : list string :=
  match cmdConn m with
  | None => []
  | Some t => map string_of_list_byte (written t)
  end.

(** How many times [cmd] has been sent. *)
Definition timesSent (cmd : string) (m : Modem) : nat :=
  count_occ string_dec (sentCmds m) (cmd ++ CR).

(** ** The Buffer Count of a session *)

(** The counter after the operations of a call. *)
Definition applyOp (c : Z) (o : op) : Z :=
  match o with
  | Incr n => BufferCounter.incr n c
  | _ => c
  end.

Definition applyOps (l : list op) (c : Z) : Z := fold_left applyOp l c.

Section Counter.

Variable parseBuffer : string -> Z.







End Counter.

(** Modelled from the spec: a reading of [BUFFER <n>] records (section 6:
    prefix match, trailing integer), to run the stream on concrete
    records. *)
Fixpoint decimal (s : string) (acc : Z) : Z :=
  match s with
  | EmptyString => acc
  | String c r =>
      let d := Z.of_nat (nat_of_ascii c) - 48 in
      if (0 <=? d) && (d <=? 9) then decimal r (10 * acc + d) else acc
  end.

Definition parseBufferRef (s : string) : Z :=
  if prefix "BUFFER " s
  then decimal (substring 7 (String.length s - 7) s) 0
  else 0.

(** ** The teardown of a session: [Close] of [Modem], [vara/vara.go] *)

Definition set_toCall (call : string) (m : Modem) : Modem :=
  mkModem (myCall m) (cmdConn m) (dataConn m) call (busy m) (connectChange m)
          (lastState m) (rig m) (connState m) (closed m) (bufferCount m)
          (debug m) (logged m).

(** [errors.New("disconnect failed")], an error known by its message. *)
Definition errDisconnectFailed : error := ErrIO "disconnect failed".

(** A receive [<-ch] on a channel that holds [q]: the oldest value it holds,
    or, when it holds none, the next value sent on it ([later]; [None] when
    nothing is ever sent). *)
Definition chan_recv {A : Type} (q : list A) (later : option A)
  : option (A * list A) :=
  match q with
  | x :: q' => Some (x, q')
  | [] =>
      match later with
      | Some x => Some (x, [])
      | None => None
      end
  end.

(** [Close] of [Modem]: closes the RF and then the TCP connections to the
    modem.  [later] is the next notification the event loop sends on
    [connectChange], if it ever sends one. *)
Definition ModemClose (m : Modem) (later : option connectedState)
  : ret goerror * Modem :=
  (* Send ABORT command *)
  let '(err, m1) :=
    match cmdConn m with
    | None => (None, m)
    | Some _ => writeCmd "ABORT" m
    end in
  match err with
  | Some e => (Returned (Some e), m1)
  | None =>
      let finish (m2 : Modem) : ret goerror * Modem :=
        (* Make sure to stop TX *)
        let m3 := setPTT false m2 in
        (* Clear up internal state *)
        (Returned None, set_toCall "" m3) in
      (* Block until VARA modem acks disconnect *)
      if connectedState_eqb (lastState m1) connected then
        match chan_recv (connectChange m1) later with
        | None => (Blocked, m1)
        | Some (s, q) =>
            let m2 := set_connectChange q m1 in
            if negb (connectedState_eqb s disconnected)
            then (Returned (Some errDisconnectFailed), m2)
            else finish m2
        end
      else finish m1
  end.

(** ** Reading a batch of records *)

(** The call of [SetPTT] a record asks for, if it asks for one. *)
Definition keying (c : string) : option bool :=
  if String.eqb c "PTT ON" then Some true
  else if String.eqb c "PTT OFF" then Some false
  else None.

(** The calls of [SetPTT] the records of a batch ask for, in order. *)
Fixpoint keyings (cmds : list string) : list bool :=
  match cmds with
  | [] => []
  | c :: rest =>
      match keying c with
      | Some on => on :: keyings rest
      | None => keyings rest
      end
  end.

(** The busy flag after the records of a batch: that of the last BUSY
    record, the flag before when there is none. *)
Fixpoint busyAfter (cmds : list string) (b : bool) : bool :=
  match cmds with
  | [] => b
  | c :: rest =>
      busyAfter rest
        (if String.eqb c "BUSY ON" then true
         else if String.eqb c "BUSY OFF" then false
         else b)
  end.

(** A record that asks for no keying, is no BUSY record, and is neither the
    disconnect nor a CONNECTED record. *)
Definition passive (c : string) : Prop :=
  c <> "PTT ON" /\ c <> "PTT OFF" /\ c <> "BUSY ON" /\ c <> "BUSY OFF"
  /\ c <> "DISCONNECTED" /\ prefix "CONNECTED" c = false.

(** A rig, if there is one, after further calls of [SetPTT]. *)
Definition keyed (calls : list bool) (r : option (list bool)) : option (list bool) :=
  option_map (fun l => (l ++ calls)%list) r.

(** The records of the reads that succeeded, in order. *)
Fixpoint records (reads : list readResult) : list string :=
  match reads with
  | [] => []
  | ReadOk data :: rest => (splitCR data ++ records rest)%list
  | ReadErr _ :: rest => records rest
  end.

(** The last value a channel holds is [s]. *)
Definition lastHeld {A : Type} (q : list A) (s : A) : Prop :=
  exists q', q = (q' ++ [s])%list.

(** A read of the command port that failed. *)
Definition failedRead (r : readResult) : Prop :=
  match r with
  | ReadErr _ => True
  | ReadOk _ => False
  end.

(** [m'] is [m] but for what has been logged. *)
Definition sameButLog (m m' : Modem) : Prop := m' = set_logged (logged m') m.

(** ** Scenarios *)

(** A connected stream on a working command port, for the scenarios. *)
Definition liveModem (count : Z) : Modem :=
  set_connState connected
    (set_lastState connected
       (set_bufferCount count
          (set_dataConn (Some fresh_tcp)
             (set_cmdConn (Some fresh_tcp) (NewModem "N0CALL" false))))).

(** A modem after [start]: its command port is open, nothing else has
    happened. *)
Definition startedModem : Modem :=
  set_dataConn (Some fresh_tcp)
    (set_cmdConn (Some fresh_tcp) (NewModem "N0CALL" false)).

Definition liveConn (count : Z) : conn := newConn (liveModem count) "LA5NTA".

Definition hello : list Byte.byte := list_byte_of_string "hello".

(** * Properties *)

(** ** Integers, time and [select] *)

Lemma wrap_small (z : Z) :
  GoInt.min_int <= z <= GoInt.max_int -> GoInt.wrap z = z.
Proof.
  unfold GoInt.wrap, GoInt.min_int, GoInt.max_int. intros H.
  rewrite Z.mod_small; lia.
Qed.

Lemma len_nonneg {A : Type} (b : list A) : 0 <= GoInt.len b.
Proof. unfold GoInt.len. lia. Qed.

Lemma maxAlloc_room : 1025 * GoInt.maxAlloc <= GoInt.max_int.
Proof. vm_compute. discriminate. Qed.

Lemma mul_len {A : Type} (b : list A) :
  GoInt.len b <= GoInt.maxAlloc ->
  GoInt.mul magicNumber (GoInt.len b) = 7 * GoInt.len b.
Proof.
  intros Hb. unfold GoInt.mul, magicNumber. apply wrap_small.
  pose proof (len_nonneg b) as H0.
  pose proof maxAlloc_room as H1.
  unfold GoInt.min_int. split; [ lia | ].
  assert (0 <= GoInt.maxAlloc) by (vm_compute; discriminate).
  lia.
Qed.

Lemma incr_len {A : Type} (c : Z) (b : list A) :
  0 <= c < 7 * GoInt.len b -> GoInt.len b <= GoInt.maxAlloc ->
  BufferCounter.incr (GoInt.len b) c = c + GoInt.len b.
Proof.
  intros Hc Hb. unfold BufferCounter.incr, GoInt.add. apply wrap_small.
  pose proof (len_nonneg b) as H0.
  pose proof maxAlloc_room as H1.
  unfold GoInt.min_int. split; [ lia | ].
  lia.
Qed.

Lemma Minute_is_60_seconds : 60 * Clock.Second = Clock.Minute.
Proof. reflexivity. Qed.

Lemma Minute_pos : 0 < Clock.Minute.
Proof. reflexivity. Qed.

Lemma takes_recv_before {A : Type} (now deadline : Z) (a : arrival A) :
  ready_at now a < deadline -> takes_recv now deadline a = true.
Proof.
  intros H. unfold takes_recv.
  apply Z.ltb_lt in H. rewrite H. reflexivity.
Qed.

Lemma takes_recv_after {A : Type} (now deadline : Z) (a : arrival A) :
  deadline < ready_at now a -> takes_recv now deadline a = false.
Proof.
  intros H. unfold takes_recv.
  replace (ready_at now a <? deadline) with false
    by (symmetry; apply Z.ltb_ge; lia).
  replace (ready_at now a =? deadline) with false
    by (symmetry; apply Z.eqb_neq; lia).
  reflexivity.
Qed.

Lemma takes_recv_inv {A : Type} (now deadline : Z) (a : arrival A) :
  takes_recv now deadline a = true -> ready_at now a <= deadline.
Proof.
  unfold takes_recv. intros H.
  apply orb_true_iff in H. destruct H as [H | H].
  - apply Z.ltb_lt in H. lia.
  - apply andb_true_iff in H. destruct H as [H _].
    apply Z.eqb_eq in H. lia.
Qed.

Lemma fires_at_due (now deadline : Z) :
  now <= deadline -> fires_at now deadline = deadline.
Proof. unfold fires_at. lia. Qed.

Lemma connectedState_eqb_eq (a b : connectedState) :
  connectedState_eqb a b = true <-> a = b.
Proof. destruct a, b; simpl; split; congruence. Qed.

Lemma notConnected_true (v : conn) :
  notConnected v = true <-> connState (modem v) <> connected.
Proof.
  unfold notConnected. destruct (connState (modem v)); simpl; split;
    congruence.
Qed.

Lemma notConnected_false (v : conn) :
  notConnected v = false <-> connState (modem v) = connected.
Proof.
  unfold notConnected. destruct (connState (modem v)); simpl; split;
    congruence.
Qed.

(** ** Read and Write on a stream that is not connected *)

(** C8. A [Read] and a [Write] called while the state of the connection is
    not [connected] fail at once with end-of-stream: both return 0 bytes and
    [io.EOF] at the instant of the call, having done nothing to the counter
    or to the data port and having received nothing. *)
Theorem not_connected_is_eof
  (parseBuffer : string -> Z) (v : conn) (b : list Byte.byte) (now : Z)
  (cmds : inbox) (wr : Z * goerror) (rd : option dataRead) :
  connState (modem v) <> connected ->
  Read v now cmds rd = mkCall (Returned (0, Some EOF)) [] now cmds
  /\ Write parseBuffer v b now cmds wr
     = mkCall (Returned (0, Some EOF)) [] now cmds.
Proof.
  intros H. apply notConnected_true in H.
  unfold Read, Write. rewrite H. split; reflexivity.
Qed.

Lemma not_connected_is_eof_witness :
  let v := newConn (NewModem "N0CALL" false) "LA5NTA" in
  Read v 0 [] None = mkCall (Returned (0, Some EOF)) [] 0 []
  /\ Write parseBufferRef v hello 0 [] (5, None)
     = mkCall (Returned (0, Some EOF)) [] 0 [].
Proof.
  apply (not_connected_is_eof parseBufferRef
           (newConn (NewModem "N0CALL" false) "LA5NTA") hello 0 [] (5, None) None).
  simpl. discriminate.
Defined.

(** ** Write: the throttle *)

Section WriteFacts.

Variable parseBuffer : string -> Z.

Lemma throttle_open (v : conn) (b : list Byte.byte)
      (count now deadline : Z) (cmds : inbox) :
  closing v = true \/ count < GoInt.mul magicNumber (GoInt.len b) ->
  throttle parseBuffer v b count now deadline cmds = Proceed count now cmds.
Proof.
  intros H.
  assert (E : (count >=? GoInt.mul magicNumber (GoInt.len b))
              && negb (closing v) = false).
  { destruct H as [H | H].
    - rewrite H. apply andb_false_r.
    - replace (count >=? GoInt.mul magicNumber (GoInt.len b)) with false;
        [ reflexivity | ].
      symmetry. rewrite Z.geb_leb. apply Z.leb_gt. exact H. }
  destruct cmds; simpl; rewrite E; reflexivity.
Qed.

Lemma throttle_full (v : conn) (b : list Byte.byte) (count : Z) :
  closing v = false -> GoInt.mul magicNumber (GoInt.len b) <= count ->
  (count >=? GoInt.mul magicNumber (GoInt.len b)) && negb (closing v) = true.
Proof.
  intros Hc H. rewrite Hc. simpl. rewrite andb_true_r.
  rewrite Z.geb_leb. apply Z.leb_le. exact H.
Qed.

Lemma throttle_proceed_inv (v : conn) (b : list Byte.byte) :
  closing v = false -> GoInt.len b <= GoInt.maxAlloc ->
  forall (cmds : inbox) (count now deadline c' t' : Z) (rest : inbox),
    throttle parseBuffer v b count now deadline cmds = Proceed c' t' rest ->
    c' < 7 * GoInt.len b
    /\ ((cmds = rest /\ c' = count /\ t' = now)
        \/ (7 * GoInt.len b <= count
            /\ exists pre a cmd,
                cmds = (pre ++ a :: rest)%list
                /\ what a = Msg cmd /\ cmd <> disconnectedCmd
                /\ parseBuffer cmd = c'
                /\ Forall (staleReport parseBuffer b) pre)).
Proof.
  intros Hc Hb. pose proof (mul_len b Hb) as Hm.
  induction cmds as [ | a cmds IH ]; intros count now deadline c' t' rest H.
  - simpl in H.
    destruct ((count >=? GoInt.mul magicNumber (GoInt.len b))
              && negb (closing v)) eqn:E; [ discriminate | ].
    inversion H; subst. rewrite Hc in E. simpl in E. rewrite andb_true_r in E.
    rewrite Z.geb_leb in E. apply Z.leb_gt in E.
    split; [ lia | left; auto ].
  - simpl in H.
    destruct ((count >=? GoInt.mul magicNumber (GoInt.len b))
              && negb (closing v)) eqn:E.
    + rewrite Hc in E. simpl in E. rewrite andb_true_r in E.
      rewrite Z.geb_leb in E. apply Z.leb_le in E.
      destruct (takes_recv now deadline a); [ | discriminate ].
      destruct (what a) as [ cmd | ] eqn:Ea; [ | discriminate ].
      destruct (String.eqb cmd disconnectedCmd) eqn:Ed; [ discriminate | ].
      apply String.eqb_neq in Ed.
      apply IH in H. destruct H as [Hlt H]. split; [ exact Hlt | ].
      right. split; [ lia | ].
      destruct H as [ (H1 & H2 & H3) | (Hge & pre & a' & cmd' & H1 & H2 & H3 & H4 & H5) ].
      * exists [], a, cmd. subst. simpl. repeat split; auto.
      * exists (a :: pre), a', cmd'. subst cmds. simpl.
        repeat split; auto. constructor; [ | exact H5 ].
        exists cmd. repeat split; auto.
    + inversion H; subst. rewrite Hc in E. simpl in E.
      rewrite andb_true_r in E.
      rewrite Z.geb_leb in E. apply Z.leb_gt in E.
      split; [ lia | left; auto ].
Qed.

End WriteFacts.

(** C9, amended. A [Write] on a connected stream that is not in
    graceful-closing mode and whose Buffer Count is below [7 * len(b)] does
    not wait: it increments the Buffer Count by [len(b)], hands [b] to the
    data port and returns what the data port answers, at the instant of the
    call and without receiving anything from its subscription. *)
Theorem write_below_threshold
  (pb : string -> Z) (v : conn) (b : list Byte.byte) (now : Z) (cmds : inbox)
  (io : Z * goerror) :
  connState (modem v) = connected ->
  closing v = false ->
  GoInt.len b <= GoInt.maxAlloc ->
  bufferCount (modem v) < 7 * GoInt.len b ->
  Write pb v b now cmds io
  = mkCall (Returned io) [Incr (GoInt.len b); DataWrite b] now cmds.
Proof.
  intros Hs Hc Hb Hlt. unfold Write, BufferCounter.get.
  apply notConnected_false in Hs. rewrite Hs.
  rewrite throttle_open by (right; rewrite (mul_len b Hb); exact Hlt).
  rewrite Hc. reflexivity.
Qed.

Lemma write_below_threshold_witness :
  Write parseBufferRef (liveConn 10) hello 0 [] (5, None)
  = mkCall (Returned (5, None)) [Incr 5; DataWrite hello] 0 [].
Proof.
  apply (write_below_threshold parseBufferRef (liveConn 10) hello 0 [] (5, None)).
  - reflexivity.
  - reflexivity.
  - vm_compute. discriminate.
  - vm_compute. reflexivity.
Defined.

(** C9 as stated fails: in graceful-closing mode a [Write] on a connected
    stream with a Buffer Count below [7 * len(b)] waits for the disconnect;
    with nothing delivered it never returns, and it neither increments the
    counter nor writes. *)
Lemma write_below_threshold_waits_when_closing :
  let v := set_closing true (liveConn 0) in
  connState (modem v) = connected
  /\ bufferCount (modem v) < 7 * GoInt.len hello
  /\ Write parseBufferRef v hello 0 [] (5, None) = mkCall Blocked [] 0 [].
Proof. vm_compute. repeat split. Qed.

Lemma throttle_closing_only (pb : string -> Z) (v v' : conn) (b : list Byte.byte) :
  closing v = closing v' ->
  forall (cmds : inbox) (count now deadline : Z),
    throttle pb v b count now deadline cmds
    = throttle pb v' b count now deadline cmds.
Proof.
  intros Hc. induction cmds as [ | a cmds IH ]; intros count now deadline;
    simpl; rewrite Hc; [ reflexivity | ].
  destruct ((count >=? GoInt.mul magicNumber (GoInt.len b))
            && negb (closing v')); [ | reflexivity ].
  destruct (takes_recv now deadline a); [ | reflexivity ].
  destruct (what a) as [ cmd | ]; [ | reflexivity ].
  destruct (String.eqb cmd disconnectedCmd); [ reflexivity | apply IH ].
Qed.

Lemma Write_withCount (pb : string -> Z) (v : conn) (b : list Byte.byte)
      (n now : Z) (cmds : inbox) (io : Z * goerror) :
  Write pb (withCount n v) b now cmds io
  = if notConnected v then mkCall (Returned (0, Some EOF)) [] now cmds
    else
      match throttle pb v b n now (now + Clock.Minute) cmds with
      | Failed e t rest => mkCall (Returned (0, Some e)) [] t rest
      | Proceed _ t rest =>
          if closing v && negb (notConnected v) then
            match awaitDisconnect t rest with
            | Some (t', rest') => mkCall (Returned (0, Some EOF)) [] t' rest'
            | None => mkCall Blocked [] t []
            end
          else mkCall (Returned io) [Incr (GoInt.len b); DataWrite b] t rest
      end.
Proof.
  unfold Write, BufferCounter.get.
  replace (notConnected (withCount n v)) with (notConnected v) by reflexivity.
  replace (closing (withCount n v)) with (closing v) by reflexivity.
  replace (bufferCount (modem (withCount n v))) with n by reflexivity.
  rewrite (throttle_closing_only pb (withCount n v) v b eq_refl).
  reflexivity.
Qed.

Lemma ready_before (now d : Z) (a : arrival string) :
  0 < d -> at_ a < now + d -> ready_at now a < now + d.
Proof. unfold ready_at. lia. Qed.

Lemma throttle_step (pb : string -> Z) (v : conn) (b : list Byte.byte)
      (count now deadline : Z) (a : arrival string) (rest : inbox) (cmd : string) :
  closing v = false ->
  GoInt.mul magicNumber (GoInt.len b) <= count ->
  takes_recv now deadline a = true ->
  what a = Msg cmd -> cmd <> disconnectedCmd ->
  throttle pb v b count now deadline (a :: rest)
  = throttle pb v b (pb cmd) (ready_at now a)
             (ready_at now a + Clock.Minute) rest.
Proof.
  intros Hc Hge Ht Hw Hnd. cbn [throttle].
  rewrite (throttle_full v b count Hc Hge), Ht, Hw.
  apply String.eqb_neq in Hnd. rewrite Hnd. reflexivity.
Qed.

Lemma throttle_timeout (pb : string -> Z) (v : conn) (b : list Byte.byte)
      (count now deadline : Z) (cmds : inbox) :
  closing v = false ->
  GoInt.mul magicNumber (GoInt.len b) <= count ->
  now <= deadline ->
  cmds = [] \/ (exists a rest, cmds = a :: rest /\ deadline < at_ a) ->
  throttle pb v b count now deadline cmds = Failed ErrWriteTimeout deadline cmds.
Proof.
  intros Hc Hge Hd [ -> | (a & rest & -> & Hlate) ]; cbn [throttle];
    rewrite (throttle_full v b count Hc Hge).
  - rewrite fires_at_due by exact Hd. reflexivity.
  - rewrite takes_recv_after by (unfold ready_at; lia).
    rewrite fires_at_due by exact Hd. reflexivity.
Qed.

(** A report below the threshold, delivered in time to a [Write] that
    waits, lets it through. *)
Lemma Write_let_through (pb : string -> Z) (v : conn) (b : list Byte.byte)
      (now : Z) (a : arrival string) (rest : inbox) (cmd : string)
      (io : Z * goerror) :
  connState (modem v) = connected ->
  closing v = false ->
  GoInt.len b <= GoInt.maxAlloc ->
  7 * GoInt.len b <= bufferCount (modem v) ->
  at_ a < now + Clock.Minute ->
  what a = Msg cmd -> cmd <> disconnectedCmd ->
  pb cmd < 7 * GoInt.len b ->
  Write pb v b now (a :: rest) io
  = mkCall (Returned io) [Incr (GoInt.len b); DataWrite b] (ready_at now a) rest.
Proof.
  intros Hs Hc Hb Hge Hin Hw Hnd Hlt.
  pose proof (mul_len b Hb) as Hm. pose proof Minute_pos as Hmin.
  apply notConnected_false in Hs.
  unfold Write, BufferCounter.get. rewrite Hs.
  rewrite (throttle_step pb v b _ now _ a rest cmd Hc) by
    (try assumption; try (rewrite Hm; assumption);
     apply takes_recv_before; apply ready_before; assumption).
  rewrite throttle_open by (right; rewrite Hm; exact Hlt).
  rewrite Hc. reflexivity.
Qed.

(** C1. A [Write] on a connected stream that is not in graceful-closing
    mode and whose Buffer Count is at least [7 * len(b)] sends nothing and
    waits:
    - when no delivery is made within one minute, it returns 0 and the
      buffer-timeout error, one minute after the call;
    - when the disconnect (or the end of the subscription) is delivered
      within the minute, it returns 0 and end-of-stream at that instant;
    - when a [Buffer(n)] report is delivered within the minute, it goes on
      as a [Write] called at that instant with [n] for the count, its timer
      started afresh; so
    - a report with [n] below [7 * len(b)] lets the write through at that
      instant: the Buffer Count is incremented by [len(b)], [b] is handed
      to the data port and its answer returned;
    - a report with [n] at or above [7 * len(b)] leaves it waiting: with no
      further delivery within a minute of that report, it returns 0 and the
      buffer-timeout error one minute after the report;
    - it reaches the underlying write only after a report whose count is
      below [7 * len(b)], every report before it having been at or above. *)
Theorem write_throttled
  (pb : string -> Z) (v : conn) (b : list Byte.byte) (now : Z)
  (io : Z * goerror) :
  connState (modem v) = connected ->
  closing v = false ->
  GoInt.len b <= GoInt.maxAlloc ->
  7 * GoInt.len b <= bufferCount (modem v) ->
  (forall cmds : inbox,
      cmds = [] \/ (exists a rest, cmds = a :: rest /\ now + Clock.Minute < at_ a) ->
      Write pb v b now cmds io
      = mkCall (Returned (0, Some ErrWriteTimeout)) [] (now + Clock.Minute) cmds)
  /\ (forall (a : arrival string) (rest : inbox),
         at_ a < now + Clock.Minute ->
         what a = Msg disconnectedCmd \/ what a = Closed ->
         Write pb v b now (a :: rest) io
         = mkCall (Returned (0, Some EOF)) [] (ready_at now a) rest)
  /\ (forall (a : arrival string) (rest : inbox) (cmd : string),
         at_ a < now + Clock.Minute ->
         what a = Msg cmd -> cmd <> disconnectedCmd ->
         Write pb v b now (a :: rest) io
         = Write pb (withCount (pb cmd) v) b (ready_at now a) rest io)
  /\ (forall (a : arrival string) (rest : inbox) (cmd : string),
         at_ a < now + Clock.Minute ->
         what a = Msg cmd -> cmd <> disconnectedCmd ->
         pb cmd < 7 * GoInt.len b ->
         Write pb v b now (a :: rest) io
         = mkCall (Returned io) [Incr (GoInt.len b); DataWrite b]
                  (ready_at now a) rest)
  /\ (forall (a : arrival string) (rest : inbox) (cmd : string),
         at_ a < now + Clock.Minute ->
         what a = Msg cmd -> cmd <> disconnectedCmd ->
         7 * GoInt.len b <= pb cmd ->
         rest = []
         \/ (exists a' rest',
                rest = a' :: rest' /\ ready_at now a + Clock.Minute < at_ a') ->
         Write pb v b now (a :: rest) io
         = mkCall (Returned (0, Some ErrWriteTimeout)) []
                  (ready_at now a + Clock.Minute) rest)
  /\ (forall cmds : inbox,
         let w := Write pb v b now cmds io in
         ops w <> [] ->
         ops w = [Incr (GoInt.len b); DataWrite b]
         /\ exists pre a cmd,
             cmds = (pre ++ a :: pending w)%list
             /\ what a = Msg cmd /\ cmd <> disconnectedCmd
             /\ pb cmd < 7 * GoInt.len b
             /\ Forall (staleReport pb b) pre).
Proof.
  intros Hs Hc Hb Hge.
  pose proof (mul_len b Hb) as Hm.
  pose proof Minute_pos as Hmin.
  assert (Hn : notConnected v = false) by (apply notConnected_false; exact Hs).
  assert (Hfull : GoInt.mul magicNumber (GoInt.len b) <= bufferCount (modem v))
    by (rewrite Hm; exact Hge).
  split; [ | split; [ | split; [ | split; [ | split ] ] ] ].
  - intros cmds Hq. unfold Write, BufferCounter.get. rewrite Hn.
    rewrite (throttle_timeout pb v b _ now (now + Clock.Minute) cmds Hc Hfull)
      by (try lia; exact Hq).
    reflexivity.
  - intros a rest Hin Hw.
    unfold Write, BufferCounter.get. rewrite Hn. cbn [throttle].
    rewrite (throttle_full v b _ Hc Hfull).
    rewrite takes_recv_before by (apply ready_before; assumption).
    destruct Hw as [ -> | -> ]; reflexivity.
  - intros a rest cmd Hin Hw Hnd.
    rewrite Write_withCount.
    unfold Write, BufferCounter.get. rewrite Hn.
    rewrite (throttle_step pb v b _ now _ a rest cmd Hc Hfull)
      by (try assumption; apply takes_recv_before; apply ready_before; assumption).
    reflexivity.
  - intros a rest cmd Hin Hw Hnd Hlt.
    apply (Write_let_through pb v b now a rest cmd io); assumption.
  - intros a rest cmd Hin Hw Hnd Hstale Hq.
    unfold Write, BufferCounter.get. rewrite Hn.
    rewrite (throttle_step pb v b _ now _ a rest cmd Hc Hfull)
      by (try assumption; apply takes_recv_before; apply ready_before; assumption).
    rewrite (throttle_timeout pb v b (pb cmd) (ready_at now a)
                              (ready_at now a + Clock.Minute) rest Hc)
      by (try (rewrite Hm; exact Hstale); try lia; exact Hq).
    reflexivity.
  - intros cmds w Hops. subst w. revert Hops.
    unfold Write, BufferCounter.get. rewrite Hn.
    destruct (throttle pb v b (bufferCount (modem v)) now
                       (now + Clock.Minute) cmds) as [ c' t' rest | e t rest ] eqn:E.
    + rewrite Hc. simpl. intros _. split; [ reflexivity | ].
      destruct (throttle_proceed_inv pb v b Hc Hb _ _ _ _ _ _ _ E)
        as [Hlt [ (H1 & H2 & H3) | (_ & pre & a & cmd & H1 & H2 & H3 & H4 & H5) ]].
      * lia.
      * exists pre, a, cmd. subst c'. repeat split; auto.
    + simpl. intros H. contradiction H. reflexivity.
Qed.

Lemma write_throttled_witness :
  Write parseBufferRef (liveConn 42) hello 0
        [mkArrival 5 (Msg "BUFFER 10") false] (5, None)
  = mkCall (Returned (5, None)) [Incr 5; DataWrite hello] 5 []
  /\ Write parseBufferRef (liveConn 42) hello 0
           [mkArrival 5 (Msg "BUFFER 35") false] (5, None)
     = mkCall (Returned (0, Some ErrWriteTimeout)) [] (5 + Clock.Minute) [].
Proof.
  assert (H := write_throttled parseBufferRef (liveConn 42) hello 0 (5, None)).
  destruct H as (_ & _ & _ & H4 & H5 & _).
  - reflexivity.
  - reflexivity.
  - vm_compute. discriminate.
  - vm_compute. discriminate.
  - split.
    + apply (H4 (mkArrival 5 (Msg "BUFFER 10") false) [] "BUFFER 10").
      * vm_compute. reflexivity.
      * reflexivity.
      * discriminate.
      * vm_compute. reflexivity.
    + apply (H5 (mkArrival 5 (Msg "BUFFER 35") false) [] "BUFFER 35").
      * vm_compute. reflexivity.
      * reflexivity.
      * discriminate.
      * vm_compute. discriminate.
      * left. reflexivity.
Defined.

(** ** Write in graceful-closing mode *)

Lemma awaitDisconnect_found (pre : inbox) :
  Forall otherRecord pre ->
  forall (now : Z) (a : arrival string) (rest : inbox),
    terminal a ->
    awaitDisconnect now (pre ++ a :: rest)%list
    = Some (ready_at (wokenAt now pre) a, rest).
Proof.
  induction 1 as [ | x pre (c & Hx & Hc) _ IH ]; intros now a rest Ht.
  - simpl. destruct Ht as [ -> | -> ]; reflexivity.
  - simpl. rewrite Hx. apply String.eqb_neq in Hc. rewrite Hc.
    apply IH. exact Ht.
Qed.

Lemma awaitDisconnect_never (cmds : inbox) :
  Forall otherRecord cmds ->
  forall now : Z, awaitDisconnect now cmds = None.
Proof.
  induction 1 as [ | x pre (c & Hx & Hc) _ IH ]; intros now.
  - reflexivity.
  - simpl. rewrite Hx. apply String.eqb_neq in Hc. rewrite Hc. apply IH.
Qed.

Lemma Write_closing (pb : string -> Z) (v : conn) (b : list Byte.byte)
      (now : Z) (cmds : inbox) (io : Z * goerror) :
  closing v = true -> connState (modem v) = connected ->
  Write pb v b now cmds io
  = match awaitDisconnect now cmds with
    | Some (t', rest') => mkCall (Returned (0, Some EOF)) [] t' rest'
    | None => mkCall Blocked [] now []
    end.
Proof.
  intros Hc Hs. apply notConnected_false in Hs.
  unfold Write, BufferCounter.get. rewrite Hs.
  rewrite throttle_open by (left; exact Hc).
  rewrite Hc. reflexivity.
Qed.

(** C3. A [Write] called in graceful-closing mode while the state is still
    [connected] does not call [incr] on the Buffer Count and hands nothing
    to the data port, whatever is delivered to it; it returns 0 and
    end-of-stream at the instant the disconnect is delivered (or the
    subscription ends), and does not return as long as neither is. *)
Theorem write_while_closing
  (pb : string -> Z) (v : conn) (b : list Byte.byte) (now : Z)
  (io : Z * goerror) :
  closing v = true ->
  connState (modem v) = connected ->
  (forall cmds : inbox,
      let w := Write pb v b now cmds io in
      ops w = []
      /\ applyOps (ops w) (bufferCount (modem v)) = bufferCount (modem v)
      /\ (result w = Blocked \/ result w = Returned (0, Some EOF)))
  /\ (forall (pre : inbox) (a : arrival string) (rest : inbox),
         Forall otherRecord pre -> terminal a ->
         Write pb v b now (pre ++ a :: rest)%list io
         = mkCall (Returned (0, Some EOF)) []
                  (ready_at (wokenAt now pre) a) rest)
  /\ (forall cmds : inbox,
         Forall otherRecord cmds ->
         result (Write pb v b now cmds io) = Blocked).
Proof.
  intros Hc Hs. split; [ | split ].
  - intros cmds w. subst w. rewrite (Write_closing pb v b now cmds io Hc Hs).
    destruct (awaitDisconnect now cmds) as [ [t' rest'] | ]; simpl; auto.
  - intros pre a rest Hpre Ha.
    rewrite (Write_closing pb v b now _ io Hc Hs).
    rewrite (awaitDisconnect_found pre Hpre now a rest Ha). reflexivity.
  - intros cmds Hq.
    rewrite (Write_closing pb v b now cmds io Hc Hs).
    rewrite (awaitDisconnect_never cmds Hq now). reflexivity.
Qed.

Lemma write_while_closing_witness :
  Write parseBufferRef (set_closing true (liveConn 0)) hello 0
        [mkArrival 3 (Msg "BUFFER 0") false;
         mkArrival 9 (Msg "DISCONNECTED") false] (5, None)
  = mkCall (Returned (0, Some EOF)) [] 9 [].
Proof.
  assert (H := write_while_closing parseBufferRef
                 (set_closing true (liveConn 0)) hello 0 (5, None)
                 eq_refl eq_refl).
  destruct H as (_ & H & _).
  apply (H [mkArrival 3 (Msg "BUFFER 0") false]
           (mkArrival 9 (Msg "DISCONNECTED") false) []).
  - constructor; [ | constructor ].
    exists "BUFFER 0". split; [ reflexivity | discriminate ].
  - left. reflexivity.
Defined.

(** ** Flush *)

Lemma Flush_withCount (pb : string -> Z) (v : conn) (n now : Z) (cmds : inbox) :
  Flush pb (withCount n v) now cmds
  = if closing v then mkCall (Returned None) [] now cmds
    else flushLoop pb n now (now + Clock.Minute) cmds.
Proof. reflexivity. Qed.

Lemma flushLoop_empty (pb : string -> Z) (count now deadline : Z) (cmds : inbox) :
  count <= 0 ->
  flushLoop pb count now deadline cmds = mkCall (Returned None) [] now cmds.
Proof.
  intros H. assert (E : (0 <? count) = false) by (apply Z.ltb_ge; exact H).
  destruct cmds; simpl; rewrite E; reflexivity.
Qed.

Lemma flushLoop_nil_inv (pb : string -> Z) :
  forall (cmds : inbox) (count now deadline : Z),
    0 < count ->
    result (flushLoop pb count now deadline cmds) = Returned None ->
    exists pre a cmd,
      cmds = (pre ++ a :: pending (flushLoop pb count now deadline cmds))%list
      /\ what a = Msg cmd /\ cmd <> disconnectedCmd /\ pb cmd <= 0
      /\ Forall (busyReport pb) pre.
Proof.
  induction cmds as [ | a cmds IH ]; intros count now deadline Hpos H.
  - simpl in H. apply Z.ltb_lt in Hpos. rewrite Hpos in H. discriminate.
  - simpl in H |- *. pose proof Hpos as Hpos'.
    apply Z.ltb_lt in Hpos. rewrite Hpos in H |- *.
    destruct (takes_recv now deadline a); [ | discriminate ].
    destruct (what a) as [ cmd | ] eqn:Ea; [ | discriminate ].
    destruct (String.eqb cmd disconnectedCmd) eqn:Ed; [ discriminate | ].
    apply String.eqb_neq in Ed.
    destruct (Z_lt_le_dec 0 (pb cmd)) as [ Hbusy | Hdone ].
    + destruct (IH _ _ _ Hbusy H) as (pre & a' & cmd' & H1 & H2 & H3 & H4 & H5).
      exists (a :: pre), a', cmd'. simpl. rewrite <- H1.
      repeat split; auto. constructor; [ | exact H5 ].
      exists cmd. repeat split; auto.
    + rewrite flushLoop_empty by exact Hdone. simpl.
      exists [], a, cmd. repeat split; auto.
Qed.

(** C7. [Flush] in graceful-closing mode returns at once with no error.
    Otherwise it returns no error at once when the Buffer Count is zero,
    and with a positive count it waits:
    - when no delivery is made within one minute, it returns the flush
      timeout error, one minute after the call;
    - when the disconnect (or the end of the subscription) is delivered
      within the minute, it returns end-of-stream at that instant;
    - when a [Buffer(n)] report is delivered within the minute, it goes on
      as a [Flush] called at that instant with [n] for the count, its timer
      started afresh;
    - it returns no error only after a report of an empty buffer, every
      report before it having left bytes in the buffer. *)
Theorem flush_waits_for_empty_buffer (pb : string -> Z) (v : conn) (now : Z) :
  (closing v = true ->
   forall cmds : inbox,
     Flush pb v now cmds = mkCall (Returned None) [] now cmds)
  /\ (closing v = false ->
      (bufferCount (modem v) <= 0 ->
       forall cmds : inbox,
         Flush pb v now cmds = mkCall (Returned None) [] now cmds)
      /\ (0 < bufferCount (modem v) ->
          (forall cmds : inbox,
              cmds = []
              \/ (exists a rest, cmds = a :: rest /\ now + Clock.Minute < at_ a) ->
              Flush pb v now cmds
              = mkCall (Returned (Some ErrFlushTimeout)) []
                       (now + Clock.Minute) cmds)
          /\ (forall (a : arrival string) (rest : inbox),
                 at_ a < now + Clock.Minute -> terminal a ->
                 Flush pb v now (a :: rest)
                 = mkCall (Returned (Some EOF)) [] (ready_at now a) rest)
          /\ (forall (a : arrival string) (rest : inbox) (cmd : string),
                 at_ a < now + Clock.Minute ->
                 what a = Msg cmd -> cmd <> disconnectedCmd ->
                 Flush pb v now (a :: rest)
                 = Flush pb (withCount (pb cmd) v) (ready_at now a) rest)
          /\ (forall cmds : inbox,
                 let f := Flush pb v now cmds in
                 result f = Returned None ->
                 exists pre a cmd,
                   cmds = (pre ++ a :: pending f)%list
                   /\ what a = Msg cmd /\ cmd <> disconnectedCmd
                   /\ pb cmd <= 0
                   /\ Forall (busyReport pb) pre))).
Proof.
  pose proof Minute_pos as Hmin.
  split.
  - intros Hc cmds. unfold Flush, BufferCounter.get. rewrite Hc. reflexivity.
  - intros Hc. split.
    + intros Hz cmds. unfold Flush, BufferCounter.get. rewrite Hc. apply flushLoop_empty. exact Hz.
    + intros Hpos. pose proof Hpos as Hpos'. apply Z.ltb_lt in Hpos'.
      split; [ | split; [ | split ] ].
      * intros cmds [ -> | (a & rest & -> & Hlate) ];
          unfold Flush, BufferCounter.get; rewrite Hc; simpl; rewrite Hpos'.
        -- rewrite fires_at_due by lia. reflexivity.
        -- rewrite takes_recv_after by (unfold ready_at; lia).
           rewrite fires_at_due by lia. reflexivity.
      * intros a rest Hin Ht. unfold Flush, BufferCounter.get. rewrite Hc. simpl. rewrite Hpos'.
        rewrite takes_recv_before by (apply ready_before; assumption).
        destruct Ht as [ -> | -> ]; reflexivity.
      * intros a rest cmd Hin Hw Hnd. rewrite Flush_withCount.
        unfold Flush, BufferCounter.get. rewrite Hc. simpl flushLoop at 1. rewrite Hpos'.
        rewrite takes_recv_before by (apply ready_before; assumption).
        rewrite Hw. apply String.eqb_neq in Hnd. rewrite Hnd. reflexivity.
      * intros cmds f. subst f. unfold Flush, BufferCounter.get. rewrite Hc.
        apply flushLoop_nil_inv. exact Hpos.
Qed.

Lemma flush_waits_for_empty_buffer_witness :
  Flush parseBufferRef (liveConn 42) 0
        [mkArrival 4 (Msg "BUFFER 0") false]
  = Flush parseBufferRef (withCount 0 (liveConn 42)) 4 [].
Proof.
  assert (H := flush_waits_for_empty_buffer parseBufferRef (liveConn 42) 0).
  destruct H as (_ & H). specialize (H eq_refl).
  destruct H as (_ & H).
  assert (Hpos : 0 < bufferCount (modem (liveConn 42)))
    by (vm_compute; reflexivity).
  destruct (H Hpos) as (_ & _ & H3 & _).
  apply (H3 (mkArrival 4 (Msg "BUFFER 0") false) [] "BUFFER 0").
  - vm_compute. reflexivity.
  - reflexivity.
  - discriminate.
Defined.

(** ** Close *)

Lemma debugPrint_cmdConn (msg : string) (m : Modem) :
  cmdConn (debugPrint msg m) = cmdConn m.
Proof. unfold debugPrint. destruct (debug m); reflexivity. Qed.

Lemma debugPrint_sentCmds (msg : string) (m : Modem) :
  sentCmds (debugPrint msg m) = sentCmds m.
Proof. unfold sentCmds. rewrite debugPrint_cmdConn. reflexivity. Qed.

Lemma debugPrint_connState (msg : string) (m : Modem) :
  connState (debugPrint msg m) = connState m.
Proof. unfold debugPrint. destruct (debug m); reflexivity. Qed.

(** On a working command port [writeCmd] sends the command and its
    carriage return, and nothing else. *)
Lemma writeCmd_sent (cmd : string) (m : Modem) (t : TCPConn) :
  cmdConn m = Some t -> down t = false ->
  sentCmds (snd (writeCmd cmd m)) = (sentCmds m ++ [(cmd ++ CR)%string])%list
  /\ exists t', cmdConn (snd (writeCmd cmd m)) = Some t' /\ down t' = false.
Proof.
  intros Hc Hd. unfold writeCmd.
  rewrite debugPrint_cmdConn, Hc. unfold tcp_write. rewrite Hd.
  cbn [snd]. split.
  - unfold sentCmds. cbn [cmdConn set_cmdConn written].
    rewrite Hc. rewrite map_app. simpl.
    rewrite string_of_list_byte_of_string. reflexivity.
  - eexists. split; reflexivity.
Qed.

(** Whatever the state of the port, [writeCmd] sends the command at most
    once and sends no other command. *)
Lemma writeCmd_timesSent (cmd other : string) (m : Modem) :
  (timesSent other (snd (writeCmd cmd m))
   <= timesSent other m + (if string_dec cmd other then 1 else 0))%nat.
Proof.
  unfold timesSent.
  destruct (cmdConn m) as [ t | ] eqn:Hc.
  - destruct (down t) eqn:Hd.
    + unfold writeCmd, sentCmds. rewrite debugPrint_cmdConn, Hc.
      unfold tcp_write. rewrite Hd. cbn [snd cmdConn set_cmdConn]. lia.
    + destruct (writeCmd_sent cmd m t Hc Hd) as [ -> _ ].
      rewrite count_occ_app. simpl.
      destruct (string_dec (cmd ++ CR) (other ++ CR)) as [ E | E ].
      * assert (cmd = other).
        { clear - E. revert other E.
          induction cmd as [ | c cmd IH ]; intros [ | d other ] E; simpl in E.
          - reflexivity.
          - inversion E as [ [H1 H2] ]. destruct other; discriminate.
          - inversion E as [ [H1 H2] ]. destruct cmd; discriminate.
          - inversion E as [ [H1 H2] ]. f_equal. apply IH. exact H2. }
        destruct (string_dec cmd other); [ lia | contradiction ].
      * lia.
  - unfold writeCmd, sentCmds. rewrite debugPrint_cmdConn, Hc.
    cbn [tcp_write snd cmdConn set_cmdConn]. lia.
Qed.

Lemma Abort_timesSent (m : Modem) :
  (timesSent "DISCONNECT" (snd (Abort m)) <= timesSent "DISCONNECT" m)%nat.
Proof.
  unfold Abort.
  pose proof (writeCmd_timesSent "ABORT" "DISCONNECT" m) as H.
  destruct (writeCmd "ABORT" m) as [ err m1 ]. cbn [snd] in *.
  destruct (string_dec "ABORT" "DISCONNECT") as [ E | _ ]; [ discriminate | ].
  unfold timesSent, sentCmds in *. cbn [cmdConn set_connState set_lastState].
  lia.
Qed.

Lemma closeBody_timesSent (v : conn) (now : Z) (cmds : inbox) :
  (timesSent "DISCONNECT" (modem (snd (closeBody v now cmds)))
   <= timesSent "DISCONNECT" (modem v) + 1)%nat.
Proof.
  unfold closeBody.
  destruct (closed (modem v)); [ cbn [snd]; lia | ].
  cbn [modem set_closing].
  destruct (connectedState_eqb (connState (modem v)) disconnected);
    [ cbn [snd modem set_closing]; lia | ].
  pose proof (writeCmd_timesSent "DISCONNECT" "DISCONNECT" (modem v)) as H.
  destruct (string_dec "DISCONNECT" "DISCONNECT") as [ _ | N ];
    [ | contradiction N; reflexivity ].
  set (m1 := snd (writeCmd "DISCONNECT" (modem v))) in *.
  pose proof (Abort_timesSent
                (debugPrint "disconnect timeout - aborting connection" m1)) as HA.
  unfold timesSent in HA at 2. rewrite debugPrint_sentCmds in HA.
  fold (timesSent "DISCONNECT" m1) in HA.
  destruct cmds as [ | a rest ]; [ cbn [snd modem set_modem]; lia | ].
  destruct (takes_recv now (now + 60 * Clock.Second) a);
    cbn [snd modem set_modem]; lia.
Qed.

Lemma Close_marks_once (v : conn) (now : Z) (cmds : inbox) :
  closeOnce (snd (Close v now cmds)) = true.
Proof.
  unfold Close. destruct (closeOnce v) eqn:E; [ exact E | ].
  destruct (closeBody v now cmds) as [c v']. reflexivity.
Qed.

(** C4, amended. [Close] is idempotent in what it does: whatever is
    delivered to the two calls, a second [Close] returns nil at once and
    leaves the stream as the first [Close] left it, and at most one
    DISCONNECT command is sent in all.  ([sync.Once] makes a call that
    overlaps the first wait for it and then proceed as a later one.) *)
Theorem close_twice
  (v : conn) (now : Z) (cmds : inbox) (now' : Z) (cmds' : inbox) :
  let first := Close v now cmds in
  let second := Close (snd first) now' cmds' in
  fst second = mkCall (Returned None) [] now' cmds'
  /\ snd second = snd first
  /\ (timesSent "DISCONNECT" (modem (snd second))
      <= timesSent "DISCONNECT" (modem v) + 1)%nat.
Proof.
  intros first second.
  assert (Hs : second = (mkCall (Returned None) [] now' cmds', snd first)).
  { subst second. unfold Close at 1.
    subst first. rewrite Close_marks_once. reflexivity. }
  rewrite Hs. cbn [fst snd]. repeat split.
  subst first. unfold Close.
  destruct (closeOnce v); [ cbn [snd]; lia | ].
  pose proof (closeBody_timesSent v now cmds) as H.
  destruct (closeBody v now cmds) as [c v']. cbn [snd modem set_closeOnce] in *.
  exact H.
Qed.

(** C4 as stated fails: when the first [Close] times out, it returns the
    timeout error and a second [Close] returns nil. *)
Lemma close_twice_outcomes_differ :
  let first := Close (liveConn 0) 0 [] in
  let second := Close (snd first) (61 * Clock.Second) [] in
  result (fst first) = Returned (Some ErrDisconnectTimeout)
  /\ result (fst second) = Returned None
  /\ result (fst first) <> result (fst second).
Proof. vm_compute. repeat split. discriminate. Qed.

Lemma Close_first (v : conn) (now : Z) (cmds : inbox) :
  closeOnce v = false -> closed (modem v) = false ->
  connState (modem v) = connected ->
  Close v now cmds
  = let m1 := snd (writeCmd "DISCONNECT" (modem v)) in
    let v1 := set_modem m1 (set_closing true v) in
    let deadline := now + 60 * Clock.Second in
    let timeout (left : inbox) :=
      (mkCall (Returned (Some ErrDisconnectTimeout)) []
              (fires_at now deadline) left,
       set_closeOnce true
         (set_modem
            (snd (Abort (debugPrint "disconnect timeout - aborting connection" m1)))
            v1)) in
    match cmds with
    | [] => timeout []
    | a :: rest =>
        if takes_recv now deadline a
        then (mkCall (Returned None) [] (ready_at now a) rest,
              set_closeOnce true v1)
        else timeout cmds
    end.
Proof.
  intros Ho Hcl Hs. unfold Close, closeBody. rewrite Ho, Hcl.
  cbn [modem set_closing]. rewrite Hs. cbn [connectedState_eqb].
  destruct cmds as [ | a rest ]; [ reflexivity | ].
  cbn [modem set_modem].
  destruct (takes_recv now (now + 60 * Clock.Second) a); reflexivity.
Qed.

Lemma Abort_disconnects (m : Modem) :
  connState (snd (Abort m)) = disconnected
  /\ lastState (snd (Abort m)) = disconnected.
Proof.
  unfold Abort. destruct (writeCmd "ABORT" m) as [err m1].
  split; reflexivity.
Qed.

(** C5. The [Close] that sends the disconnect command on a connected stream
    (the call that runs the function of the [sync.Once], on a modem that is
    not closed) waits up to 60 seconds:
    - when no delivery is made within the 60 seconds, it calls [Abort],
      which on a working command port sends ABORT after the DISCONNECT, it
      returns the disconnect-timeout error 60 seconds after the call, and
      the session is left disconnected;
    - when the disconnect is delivered first, it returns nil at that
      instant and [Abort] is not called. *)
Theorem close_times_out_after_60_seconds (v : conn) (now : Z) :
  connState (modem v) = connected ->
  closeOnce v = false ->
  closed (modem v) = false ->
  let m1 := snd (writeCmd "DISCONNECT" (modem v)) in
  (forall cmds : inbox,
      cmds = []
      \/ (exists a rest, cmds = a :: rest /\ now + 60 * Clock.Second < at_ a) ->
      fst (Close v now cmds)
      = mkCall (Returned (Some ErrDisconnectTimeout)) []
               (now + 60 * Clock.Second) cmds
      /\ modem (snd (Close v now cmds))
         = snd (Abort (debugPrint "disconnect timeout - aborting connection" m1))
      /\ connState (modem (snd (Close v now cmds))) = disconnected
      /\ lastState (modem (snd (Close v now cmds))) = disconnected
      /\ (forall t : TCPConn,
             cmdConn (modem v) = Some t -> down t = false ->
             sentCmds (modem (snd (Close v now cmds)))
             = (sentCmds (modem v)
                  ++ [("DISCONNECT" ++ CR)%string; ("ABORT" ++ CR)%string])%list))
  /\ (forall (a : arrival string) (rest : inbox),
         at_ a < now + 60 * Clock.Second ->
         fst (Close v now (a :: rest))
         = mkCall (Returned None) [] (ready_at now a) rest
         /\ modem (snd (Close v now (a :: rest))) = m1).
Proof.
  intros Hs Ho Hcl m1.
  assert (H60 : 0 < 60 * Clock.Second) by reflexivity.
  split.
  - intros cmds Hq.
    assert (E : Close v now cmds
                = (mkCall (Returned (Some ErrDisconnectTimeout)) []
                          (now + 60 * Clock.Second) cmds,
                   set_closeOnce true
                     (set_modem
                        (snd (Abort (debugPrint
                                       "disconnect timeout - aborting connection" m1)))
                        (set_modem m1 (set_closing true v))))).
    { rewrite (Close_first v now cmds Ho Hcl Hs). cbv zeta. fold m1.
      destruct Hq as [ -> | (a & rest & -> & Hlate) ].
      - rewrite fires_at_due by lia. reflexivity.
      - rewrite takes_recv_after by (unfold ready_at; lia).
        rewrite fires_at_due by lia. reflexivity. }
    rewrite E. cbn [fst snd modem set_closeOnce set_modem].
    split; [ reflexivity | ]. split; [ reflexivity | ].
    split; [ apply Abort_disconnects | ]. split; [ apply Abort_disconnects | ].
    intros t Ht Hd.
    destruct (writeCmd_sent "DISCONNECT" (modem v) t Ht Hd)
      as (Hsent & t' & Ht' & Hd').
    fold m1 in Hsent, Ht'.
    set (m2 := debugPrint "disconnect timeout - aborting connection" m1).
    assert (Ht2 : cmdConn m2 = Some t')
      by (subst m2; rewrite debugPrint_cmdConn; exact Ht').
    destruct (writeCmd_sent "ABORT" m2 t' Ht2 Hd') as (Hsent2 & _).
    unfold Abort. destruct (writeCmd "ABORT" m2) as [err m3] eqn:Em3.
    cbn [snd] in *.
    replace (sentCmds (set_connState disconnected (set_lastState disconnected m3)))
      with (sentCmds m3) by reflexivity.
    rewrite Hsent2. subst m2. rewrite debugPrint_sentCmds, Hsent.
    rewrite <- app_assoc. reflexivity.
  - intros a rest Hin.
    rewrite (Close_first v now (a :: rest) Ho Hcl Hs). cbv zeta. fold m1.
    rewrite takes_recv_before by (apply ready_before; assumption).
    split; reflexivity.
Qed.

Lemma close_times_out_after_60_seconds_witness :
  fst (Close (liveConn 0) 0 [])
  = mkCall (Returned (Some ErrDisconnectTimeout)) [] (0 + 60 * Clock.Second) []
  /\ sentCmds (modem (snd (Close (liveConn 0) 0 [])))
     = [("DISCONNECT" ++ CR)%string; ("ABORT" ++ CR)%string]
  /\ connState (modem (snd (Close (liveConn 0) 0 []))) = disconnected.
Proof.
  assert (H := close_times_out_after_60_seconds (liveConn 0) 0
                 eq_refl eq_refl eq_refl).
  destruct H as (H & _).
  destruct (H [] (or_introl eq_refl)) as (H1 & _ & H3 & _ & H5).
  split; [ exact H1 | ]. split; [ | exact H3 ].
  apply (H5 fresh_tcp); reflexivity.
Defined.

(** ** The event loop *)

Lemma debugPrint_sameButLog (msg : string) (m : Modem) :
  sameButLog m (debugPrint msg m).
Proof.
  unfold sameButLog, debugPrint. destruct m. simpl.
  destruct debug0; reflexivity.
Qed.

Lemma sameButLog_trans (m1 m2 m3 : Modem) :
  sameButLog m1 m2 -> sameButLog m2 m3 -> sameButLog m1 m3.
Proof.
  unfold sameButLog. intros H12 H23. rewrite H23. rewrite H12.
  destruct m1. reflexivity.
Qed.

Lemma sameButLog_refl (m : Modem) : sameButLog m m.
Proof. unfold sameButLog. destruct m. reflexivity. Qed.

Lemma handleCmds_app (pre post : list string) (m : Modem) :
  handleCmds (pre ++ post) m
  = match handleCmds pre m with
    | Next m' => handleCmds post m'
    | stop => stop
    end.
Proof.
  revert m. induction pre as [ | c pre IH ]; intros m; simpl.
  - reflexivity.
  - destruct (handleCmd c m); try reflexivity. apply IH.
Qed.

Lemma handleDisconnect_free (m : Modem) :
  connectChange m = [] ->
  exists m',
    handleDisconnect m = Done m'
    /\ lastState m' = disconnected
    /\ dataConn m' = None
    /\ cmdConn m' = None
    /\ connectChange m' = [disconnected].
Proof.
  intros H. destruct m as [ ? c d ? ? q ? ? ? ? ? dbg ? ].
  cbn [connectChange] in H. subst q.
  destruct c, d, dbg; eexists; (split; [ reflexivity | ]);
    repeat split; reflexivity.
Qed.

Lemma handleCmd_DISCONNECTED (m : Modem) :
  handleCmd "DISCONNECTED" m
  = match handleDisconnect (debugPrint "got cmd: DISCONNECTED" m) with
    | Done m' => Return m'
    | Sending m' => Waiting m'
    end.
Proof. reflexivity. Qed.

Lemma debugPrint_connectChange (msg : string) (m : Modem) :
  connectChange (debugPrint msg m) = connectChange m.
Proof. unfold debugPrint. destruct (debug m); reflexivity. Qed.

(** C6, amended. When the loop comes to a DISCONNECTED record with the
    slot of [connectChange] free, the state becomes [disconnected], the
    notification is placed on [connectChange], the data port and the
    command port are closed, and the loop returns: the records after it
    and the reads to come are not looked at. *)
Theorem disconnected_record_tears_down
  (m m1 : Modem) (data : string) (pre post : list string)
  (rest : list readResult) :
  cmdConn m <> None ->
  splitCR data = (pre ++ "DISCONNECTED" :: post)%list ->
  handleCmds pre m = Next m1 ->
  connectChange m1 = [] ->
  let r := cmdListen (ReadOk data :: rest) m in
  fst r = ExitedDisconnected
  /\ lastState (snd r) = disconnected
  /\ dataConn (snd r) = None
  /\ cmdConn (snd r) = None
  /\ connectChange (snd r) = [disconnected].
Proof.
  intros Hc Hsplit Hpre Hfree r. subst r.
  destruct (handleDisconnect_free (debugPrint "got cmd: DISCONNECTED" m1))
    as (m' & Hd & H1 & H2 & H3 & H4).
  { rewrite debugPrint_connectChange. exact Hfree. }
  assert (E : cmdListen (ReadOk data :: rest) m = (ExitedDisconnected, m')).
  { cbn [cmdListen]. destruct (cmdConn m); [ | contradiction Hc; reflexivity ].
    rewrite Hsplit, handleCmds_app, Hpre.
    cbn [handleCmds]. rewrite handleCmd_DISCONNECTED, Hd. reflexivity. }
  rewrite E. cbn [fst snd]. auto.
Qed.

Lemma disconnected_record_tears_down_witness :
  let r := cmdListen [ReadOk ("PTT OFF" ++ CR ++ "DISCONNECTED" ++ CR)]
                     (liveModem 0) in
  fst r = ExitedDisconnected
  /\ lastState (snd r) = disconnected
  /\ dataConn (snd r) = None
  /\ cmdConn (snd r) = None
  /\ connectChange (snd r) = [disconnected].
Proof.
  apply (disconnected_record_tears_down
           (liveModem 0) (liveModem 0)
           ("PTT OFF" ++ CR ++ "DISCONNECTED" ++ CR)
           ["PTT OFF"] [""] []).
  - discriminate.
  - reflexivity.
  - reflexivity.
  - reflexivity.
Defined.

(** C6 as stated fails: a started modem that reads a CONNECTED record nobody
    takes from [connectChange] and then a DISCONNECTED record marks the
    state [disconnected] and is left in the send of the notification, with
    the data port and the command port still open. *)
Lemma disconnected_record_can_wait_in_send :
  let r := cmdListen
             [ReadOk ("CONNECTED N0CALL LA5NTA" ++ CR ++ "DISCONNECTED" ++ CR)]
             startedModem in
  fst r = InSend
  /\ lastState (snd r) = disconnected
  /\ dataConn (snd r) = Some fresh_tcp
  /\ cmdConn (snd r) = Some fresh_tcp
  /\ fst r <> ExitedDisconnected.
Proof. vm_compute. repeat split. discriminate. Qed.

Ltac by_record c :=
  repeat match goal with
         | |- context [String.eqb c ?s] =>
             let E := fresh "E" in
             destruct (String.eqb c s) eqn:E; cbv iota
         | |- context [prefix ?s c] =>
             let E := fresh "E" in
             destruct (prefix s c) eqn:E; cbv iota
         end.

Lemma setPTT_cmdConn (on : bool) (m : Modem) : cmdConn (setPTT on m) = cmdConn m.
Proof. unfold setPTT. destruct (rig m); reflexivity. Qed.

Lemma handleConnect_cmdConn (m m' : Modem) :
  handleConnect m = Done m' -> cmdConn m' = cmdConn m.
Proof.
  unfold handleConnect.
  destruct (chan_send 1 (connectChange (set_lastState connected m)) connected);
    intros H; inversion H; reflexivity.
Qed.

(** A record the loop goes past leaves the command port as it is. *)
Lemma handleCmd_Next_cmdConn (c : string) (m m' : Modem) :
  handleCmd c m = Next m' -> cmdConn m' = cmdConn m.
Proof.
  unfold handleCmd. by_record c; intros H;
    try (inversion H; subst; clear H;
         rewrite ?setPTT_cmdConn; cbn [cmdConn set_busy logPrint set_logged];
         rewrite ?debugPrint_cmdConn; reflexivity).
  - destruct (handleDisconnect (debugPrint ("got cmd: " ++ c) m)); discriminate.
  - destruct (handleConnect (debugPrint ("got cmd: " ++ c) m)) eqn:Hc;
      [ | discriminate ].
    inversion H; subst. apply handleConnect_cmdConn in Hc.
    rewrite Hc. apply debugPrint_cmdConn.
Qed.

(** The loop returns on the DISCONNECTED record only. *)
Lemma handleCmd_Return (c : string) (m m' : Modem) :
  handleCmd c m = Return m' -> c = "DISCONNECTED".
Proof.
  unfold handleCmd. by_record c; intros H; try discriminate.
  - apply String.eqb_eq. assumption.
  - destruct (handleConnect (debugPrint ("got cmd: " ++ c) m)); discriminate.
Qed.

Lemma handleCmds_Next_cmdConn (cmds : list string) :
  forall m m' : Modem, handleCmds cmds m = Next m' -> cmdConn m' = cmdConn m.
Proof.
  induction cmds as [ | c cmds IH ]; intros m m' H; simpl in H.
  - inversion H. reflexivity.
  - destruct (handleCmd c m) as [ m1 | m1 | m1 ] eqn:E; try discriminate.
    apply IH in H. rewrite H. apply (handleCmd_Next_cmdConn c m m1 E).
Qed.

Lemma handleCmds_Return (cmds : list string) :
  forall m m' : Modem, handleCmds cmds m = Return m' -> In "DISCONNECTED" cmds.
Proof.
  induction cmds as [ | c cmds IH ]; intros m m' H; simpl in H.
  - discriminate.
  - destruct (handleCmd c m) as [ m1 | m1 | m1 ] eqn:E; try discriminate.
    + right. apply (IH m1 m' H).
    + left. apply (handleCmd_Return c m m1 E).
Qed.

Lemma cmdListen_failed_reads (reads : list readResult) :
  Forall failedRead reads ->
  forall m : Modem,
    cmdConn m <> None ->
    fst (cmdListen reads m) = InRead /\ sameButLog m (snd (cmdListen reads m)).
Proof.
  induction 1 as [ | r reads Hr _ IH ]; intros m Hc.
  - simpl. destruct (cmdConn m); [ | contradiction Hc; reflexivity ].
    split; [ reflexivity | apply sameButLog_refl ].
  - destruct r as [ data | e ]; [ contradiction Hr | ].
    cbn [cmdListen]. destruct (cmdConn m) eqn:Em; [ | contradiction Hc; reflexivity ].
    destruct (IH (debugPrint ("cmdListen err: " ++ e) m)) as [H1 H2].
    { rewrite debugPrint_cmdConn, Em. discriminate. }
    split; [ exact H1 | ].
    eapply sameButLog_trans; [ apply debugPrint_sameButLog | exact H2 ].
Qed.

Lemma cmdListen_exits (reads : list readResult) :
  forall m : Modem,
    (fst (cmdListen reads m) = ExitedNilConn -> cmdConn m = None)
    /\ (fst (cmdListen reads m) = ExitedDisconnected ->
        exists data, In (ReadOk data) reads /\ In "DISCONNECTED" (splitCR data)).
Proof.
  induction reads as [ | r reads IH ]; intros m.
  - simpl. destruct (cmdConn m); simpl; split; intros H;
      try discriminate; reflexivity.
  - cbn [cmdListen]. destruct (cmdConn m) as [ t | ] eqn:Em;
      [ | simpl; split; intros H; [ reflexivity | discriminate ] ].
    destruct r as [ data | e ].
    + destruct (handleCmds (splitCR data) m) as [ m1 | m1 | m1 ] eqn:E.
      * destruct (IH m1) as [H1 H2]. split.
        -- intros H. apply H1 in H.
           apply handleCmds_Next_cmdConn in E. congruence.
        -- intros H. destruct (H2 H) as (d & Hin & Hd).
           exists d. split; [ right; exact Hin | exact Hd ].
      * simpl. split; [ discriminate | ]. intros _.
        exists data. split; [ left; reflexivity | ].
        apply (handleCmds_Return _ m m1 E).
      * simpl. split; discriminate.
    + destruct (IH (debugPrint ("cmdListen err: " ++ e) m)) as [H1 H2]. split.
      * intros H. apply H1 in H. rewrite debugPrint_cmdConn in H. congruence.
      * intros H. destruct (H2 H) as (d & Hin & Hd).
        exists d. split; [ right; exact Hin | exact Hd ].
Qed.

(** C10. A read of the command port that returns an error makes the loop
    log the error (when debugging is on) and read again.  As long as the
    reads fail the loop stays in its read and the session is as it was but
    for the log: nothing is placed on [connectChange], the state and both
    ports are untouched.  The loop returns only on a nil command port or
    after a DISCONNECTED record. *)
Theorem read_errors_do_not_end_the_loop :
  (forall (e : string) (rest : list readResult) (m : Modem),
      cmdConn m <> None ->
      cmdListen (ReadErr e :: rest) m
      = cmdListen rest (debugPrint ("cmdListen err: " ++ e) m))
  /\ (forall (reads : list readResult) (m : Modem),
         cmdConn m <> None ->
         Forall failedRead reads ->
         let r := cmdListen reads m in
         fst r = InRead
         /\ sameButLog m (snd r)
         /\ connectChange (snd r) = connectChange m
         /\ lastState (snd r) = lastState m
         /\ cmdConn (snd r) = cmdConn m
         /\ dataConn (snd r) = dataConn m)
  /\ (forall (reads : list readResult) (m : Modem),
         fst (cmdListen reads m) = ExitedNilConn -> cmdConn m = None)
  /\ (forall (reads : list readResult) (m : Modem),
         fst (cmdListen reads m) = ExitedDisconnected ->
         exists data,
           In (ReadOk data) reads /\ In "DISCONNECTED" (splitCR data)).
Proof.
  split; [ | split; [ | split ] ].
  - intros e rest m Hc. cbn [cmdListen].
    destruct (cmdConn m); [ reflexivity | contradiction Hc; reflexivity ].
  - intros reads m Hc Hf r. subst r.
    destruct (cmdListen_failed_reads reads Hf m Hc) as [H1 H2].
    split; [ exact H1 | ]. split; [ exact H2 | ].
    unfold sameButLog in H2. rewrite H2. repeat split; reflexivity.
  - intros reads m. apply (cmdListen_exits reads m).
  - intros reads m. apply (cmdListen_exits reads m).
Qed.

Lemma read_errors_do_not_end_the_loop_witness :
  let r := cmdListen [ReadErr "EOF"; ReadErr "i/o timeout"] (liveModem 0) in
  fst r = InRead
  /\ sameButLog (liveModem 0) (snd r)
  /\ connectChange (snd r) = connectChange (liveModem 0)
  /\ lastState (snd r) = lastState (liveModem 0)
  /\ cmdConn (snd r) = cmdConn (liveModem 0)
  /\ dataConn (snd r) = dataConn (liveModem 0).
Proof.
  destruct read_errors_do_not_end_the_loop as (_ & H & _).
  apply (H [ReadErr "EOF"; ReadErr "i/o timeout"] (liveModem 0)).
  - discriminate.
  - repeat constructor.
Defined.

(** ** The Buffer Count *)

Lemma decimal_nonneg (s : string) : forall acc : Z, 0 <= acc -> 0 <= decimal s acc.
Proof.
  induction s as [ | c s IH ]; intros acc H; cbn [decimal]; cbv zeta.
  - exact H.
  - destruct ((0 <=? Z.of_nat (nat_of_ascii c) - 48)
              && (Z.of_nat (nat_of_ascii c) - 48 <=? 9)) eqn:E.
    + apply IH. apply andb_true_iff in E. destruct E as [E _].
      apply Z.leb_le in E. lia.
    + exact H.
Qed.

Lemma parseBufferRef_nonneg (s : string) : 0 <= parseBufferRef s.
Proof.
  unfold parseBufferRef. destruct (prefix "BUFFER " s).
  - apply decimal_nonneg. lia.
  - lia.
Qed.

(** ** The scenario of the specification *)

(** The state starts disconnected; a CONNECTED record makes it connected
    and places the notification on [connectChange]. *)
Example scenario_connect :
  let r := cmdListen [ReadOk ("CONNECTED N0CALL LA5NTA" ++ CR)] startedModem in
  fst r = InRead
  /\ lastState (snd r) = connected
  /\ connectChange (snd r) = [connected].
Proof. vm_compute. repeat split. Qed.

(** With no report the same write gives up after a minute. *)
Example scenario_write_timeout :
  Write parseBufferRef (liveConn 42) hello 0 [] (5, None)
  = mkCall (Returned (0, Some ErrWriteTimeout)) [] Clock.Minute [].
Proof. reflexivity. Qed.

(** A delivery at the very instant the timer is due can go either way. *)
Example scenario_tie :
  result (Flush parseBufferRef (liveConn 42) 0
                [mkArrival Clock.Minute (Msg "BUFFER 0") true])
  = Returned None
  /\ result (Flush parseBufferRef (liveConn 42) 0
                   [mkArrival Clock.Minute (Msg "BUFFER 0") false])
     = Returned (Some ErrFlushTimeout).
Proof. split; reflexivity. Qed.

(** A DISCONNECTED record ends a blocked [Read] with end-of-stream and
    forces the deadline of the pending read of the data port. *)
Example scenario_read_disconnect :
  Read (liveConn 0) 0 [mkArrival 8 (Msg "DISCONNECTED") false] None
  = mkCall (Returned (0, Some EOF))
           [SetReadDeadline None; DataRead; SetReadDeadline (Some 8)] 8 [].
Proof. reflexivity. Qed.

(** * Further properties of the session *)

(** ** The event loop *)

Lemma chan_send_held {A : Type} (cap : nat) (q q' : list A) (x : A) :
  chan_send cap q x = Some q' -> q' = (q ++ [x])%list.
Proof.
  unfold chan_send. destruct (List.length q <? cap)%nat; intros H;
    inversion H; reflexivity.
Qed.

Lemma chan_send_full {A : Type} (cap : nat) (q : list A) (x : A) :
  chan_send cap q x = None -> (cap <= List.length q)%nat.
Proof.
  unfold chan_send. destruct (List.length q <? cap)%nat eqn:E; intros H;
    [ discriminate | ]. apply Nat.ltb_ge in E. exact E.
Qed.

Lemma handleDisconnect_Done (m m' : Modem) :
  handleDisconnect m = Done m' ->
  cmdConn m' = None /\ dataConn m' = None /\ lastState m' = disconnected
  /\ connectChange m' = (connectChange m ++ [disconnected])%list
  /\ rig m' = rig m /\ busy m' = busy m.
Proof.
  unfold handleDisconnect.
  destruct (chan_send 1 (connectChange (set_lastState disconnected m))
                      disconnected) as [ q | ] eqn:E; [ | discriminate ].
  apply chan_send_held in E. cbn [connectChange set_lastState] in E. subst q.
  destruct m as [ ? c d ? ? q ? ? ? ? ? dbg ? ].
  destruct c, d, dbg; intros H; inversion H; subst; repeat split; reflexivity.
Qed.

Lemma handleDisconnect_Sending (m m' : Modem) :
  handleDisconnect m = Sending m' ->
  m' = set_lastState disconnected m /\ (1 <= List.length (connectChange m))%nat.
Proof.
  unfold handleDisconnect.
  destruct (chan_send 1 (connectChange (set_lastState disconnected m))
                      disconnected) as [ q | ] eqn:E.
  - destruct (disconnectTCP "data" _ _) as [m3 d].
    destruct (disconnectTCP "cmd" _ _) as [m5 c]. discriminate.
  - intros H. inversion H. split; [ reflexivity | ].
    apply chan_send_full in E. exact E.
Qed.

Lemma handleConnect_Done (m m' : Modem) :
  handleConnect m = Done m' ->
  m' = set_connectChange (connectChange m ++ [connected])%list
                         (set_lastState connected m).
Proof.
  unfold handleConnect.
  destruct (chan_send 1 (connectChange (set_lastState connected m)) connected)
    as [ q | ] eqn:E; intros H; inversion H.
  apply chan_send_held in E. subst q. reflexivity.
Qed.

Lemma handleConnect_Sending (m m' : Modem) :
  handleConnect m = Sending m' ->
  m' = set_lastState connected m /\ (1 <= List.length (connectChange m))%nat.
Proof.
  unfold handleConnect.
  destruct (chan_send 1 (connectChange (set_lastState connected m)) connected)
    as [ q | ] eqn:E; intros H; inversion H.
  split; [ reflexivity | ]. apply chan_send_full in E. exact E.
Qed.

Lemma debugPrint_fields (msg : string) (m : Modem) :
  cmdConn (debugPrint msg m) = cmdConn m
  /\ dataConn (debugPrint msg m) = dataConn m
  /\ lastState (debugPrint msg m) = lastState m
  /\ connectChange (debugPrint msg m) = connectChange m
  /\ rig (debugPrint msg m) = rig m
  /\ busy (debugPrint msg m) = busy m
  /\ toCall (debugPrint msg m) = toCall m.
Proof. unfold debugPrint. destruct (debug m); repeat split; reflexivity. Qed.

Lemma handleCmd_Return_state (c : string) (m m' : Modem) :
  handleCmd c m = Return m' ->
  cmdConn m' = None /\ dataConn m' = None /\ lastState m' = disconnected
  /\ lastHeld (connectChange m') disconnected.
Proof.
  unfold handleCmd. by_record c; intros H; try discriminate.
  - destruct (handleDisconnect (debugPrint ("got cmd: " ++ c) m)) as [ m1 | m1 ] eqn:Hd;
      [ | discriminate ].
    inversion H; subst m1.
    destruct (handleDisconnect_Done _ _ Hd) as (H1 & H2 & H3 & H4 & _).
    repeat split; auto. eexists. exact H4.
  - destruct (handleConnect (debugPrint ("got cmd: " ++ c) m)); discriminate.
Qed.

Lemma handleCmds_Return_state (cmds : list string) :
  forall m m' : Modem,
    handleCmds cmds m = Return m' ->
    cmdConn m' = None /\ dataConn m' = None /\ lastState m' = disconnected
    /\ lastHeld (connectChange m') disconnected.
Proof.
  induction cmds as [ | c cmds IH ]; intros m m' H; simpl in H.
  - discriminate.
  - destruct (handleCmd c m) as [ m1 | m1 | m1 ] eqn:E; try discriminate.
    + apply (IH m1 m' H).
    + inversion H; subst. apply (handleCmd_Return_state c m m' E).
Qed.

(** X2. Whenever the loop returns after a DISCONNECTED record, whatever it
    read before, the command port and the data port are nil, the state is
    [disconnected] and the notification of the disconnect is the last value
    [connectChange] holds. *)
Theorem loop_exit_is_torn_down (reads : list readResult) (m : Modem) :
  fst (cmdListen reads m) = ExitedDisconnected ->
  cmdConn (snd (cmdListen reads m)) = None
  /\ dataConn (snd (cmdListen reads m)) = None
  /\ lastState (snd (cmdListen reads m)) = disconnected
  /\ lastHeld (connectChange (snd (cmdListen reads m))) disconnected.
Proof.
  revert m. induction reads as [ | r reads IH ]; intros m.
  - simpl. destruct (cmdConn m); discriminate.
  - cbn [cmdListen]. destruct (cmdConn m); [ | discriminate ].
    destruct r as [ data | e ]; [ | apply IH ].
    destruct (handleCmds (splitCR data) m) as [ m1 | m1 | m1 ] eqn:E.
    + apply IH.
    + intros _. cbn [snd]. apply (handleCmds_Return_state _ m m1 E).
    + discriminate.
Qed.

Lemma loop_exit_is_torn_down_witness :
  let r := cmdListen [ReadErr "EOF";
                      ReadOk ("BUSY ON" ++ CR ++ "DISCONNECTED" ++ CR)]
                     (liveModem 0) in
  cmdConn (snd r) = None
  /\ dataConn (snd r) = None
  /\ lastState (snd r) = disconnected
  /\ lastHeld (connectChange (snd r)) disconnected.
Proof.
  apply (loop_exit_is_torn_down
           [ReadErr "EOF"; ReadOk ("BUSY ON" ++ CR ++ "DISCONNECTED" ++ CR)]
           (liveModem 0)).
  reflexivity.
Defined.

Lemma handleCmd_ports (c : string) (m : Modem) :
  match handleCmd c m with
  | Return _ => True
  | Next m' => cmdConn m' = cmdConn m /\ dataConn m' = dataConn m
  | Waiting m' =>
      cmdConn m' = cmdConn m /\ dataConn m' = dataConn m
      /\ (1 <= List.length (connectChange m'))%nat
  end.
Proof.
  pose proof (debugPrint_fields ("got cmd: " ++ c) m)
    as (D1 & D2 & D3 & D4 & D5 & D6 & D7).
  unfold handleCmd. by_record c;
    try (split; [ rewrite ?setPTT_cmdConn; cbn [cmdConn set_busy logPrint set_logged];
                  try exact D1; reflexivity
                | unfold setPTT;
                  try destruct (rig (debugPrint ("got cmd: " ++ c) m));
                  cbn [dataConn set_rig set_busy logPrint set_logged];
                  try exact D2; reflexivity ]).
  - destruct (handleDisconnect (debugPrint ("got cmd: " ++ c) m)) as [ m1 | m1 ] eqn:Hd;
      [ exact I | ].
    apply handleDisconnect_Sending in Hd. destruct Hd as [-> Hl].
    cbn [cmdConn dataConn connectChange set_lastState].
    rewrite D4 in Hl. rewrite D4. auto.
  - destruct (handleConnect (debugPrint ("got cmd: " ++ c) m)) as [ m1 | m1 ] eqn:Hd.
    + apply handleConnect_Done in Hd. subst m1.
      cbn [cmdConn dataConn set_connectChange set_lastState]. auto.
    + apply handleConnect_Sending in Hd. destruct Hd as [-> Hl].
      cbn [cmdConn dataConn connectChange set_lastState].
      rewrite D4 in Hl. rewrite D4. auto.
Qed.

Lemma handleCmds_ports (cmds : list string) :
  forall m : Modem,
    match handleCmds cmds m with
    | Return _ => True
    | Next m' => cmdConn m' = cmdConn m /\ dataConn m' = dataConn m
    | Waiting m' =>
        cmdConn m' = cmdConn m /\ dataConn m' = dataConn m
        /\ (1 <= List.length (connectChange m'))%nat
    end.
Proof.
  induction cmds as [ | c cmds IH ]; intros m; simpl.
  - auto.
  - pose proof (handleCmd_ports c m) as H.
    destruct (handleCmd c m) as [ m1 | m1 | m1 ]; [ | exact I | exact H ].
    destruct H as [H1 H2]. specialize (IH m1).
    destruct (handleCmds cmds m1) as [ m2 | m2 | m2 ]; [ | exact I | ].
    + destruct IH as [I1 I2]. split; congruence.
    + destruct IH as (I1 & I2 & I3). repeat split; congruence.
Qed.

Lemma cmdListen_ports (reads : list readResult) :
  forall m : Modem,
    fst (cmdListen reads m) = ExitedDisconnected
    \/ (cmdConn (snd (cmdListen reads m)) = cmdConn m
        /\ dataConn (snd (cmdListen reads m)) = dataConn m
        /\ (fst (cmdListen reads m) = InSend ->
            (1 <= List.length (connectChange (snd (cmdListen reads m))))%nat)).
Proof.
  induction reads as [ | r reads IH ]; intros m.
  - right. simpl. destruct (cmdConn m) eqn:Hc; simpl; rewrite ?Hc;
      repeat split; try reflexivity; intros; discriminate.
  - cbn [cmdListen]. destruct (cmdConn m) as [ t | ] eqn:Hc;
      [ | right; simpl; rewrite ?Hc; repeat split; try reflexivity;
          intros; discriminate ].
    destruct r as [ data | e ].
    + pose proof (handleCmds_ports (splitCR data) m) as H.
      destruct (handleCmds (splitCR data) m) as [ m1 | m1 | m1 ].
      * destruct H as [H1 H2].
        destruct (IH m1) as [ I | (I1 & I2 & I3) ]; [ left; exact I | ].
        right. repeat split; try congruence; try exact I3.
      * left. reflexivity.
      * right. destruct H as (H1 & H2 & H3). cbn [fst snd].
        repeat split; try congruence; try (intros _; exact H3).
    + destruct (debugPrint_fields ("cmdListen err: " ++ e) m)
        as (D1 & D2 & _).
      destruct (IH (debugPrint ("cmdListen err: " ++ e) m))
        as [ I | (I1 & I2 & I3) ]; [ left; exact I | ].
      right. repeat split; try congruence; try exact I3.
Qed.

(** X3. Unless it returns after a DISCONNECTED record, the loop leaves the
    command port and the data port as they were: it closes neither and
    writes to neither, whatever it reads. *)
Theorem loop_keeps_the_ports (reads : list readResult) (m : Modem) :
  fst (cmdListen reads m) <> ExitedDisconnected ->
  cmdConn (snd (cmdListen reads m)) = cmdConn m
  /\ dataConn (snd (cmdListen reads m)) = dataConn m
  /\ sentCmds (snd (cmdListen reads m)) = sentCmds m.
Proof.
  intros H. destruct (cmdListen_ports reads m) as [ E | (H1 & H2 & _) ];
    [ contradiction | ].
  repeat split; try assumption. unfold sentCmds. rewrite H1. reflexivity.
Qed.

Lemma loop_keeps_the_ports_witness :
  let r := cmdListen [ReadOk ("CONNECTED N0CALL LA5NTA" ++ CR ++ "PTT ON" ++ CR);
                      ReadErr "EOF"; ReadOk ("FOO" ++ CR)]
                     startedModem in
  cmdConn (snd r) = cmdConn startedModem
  /\ dataConn (snd r) = dataConn startedModem
  /\ sentCmds (snd r) = sentCmds startedModem.
Proof.
  apply (loop_keeps_the_ports
           [ReadOk ("CONNECTED N0CALL LA5NTA" ++ CR ++ "PTT ON" ++ CR);
            ReadErr "EOF"; ReadOk ("FOO" ++ CR)]
           startedModem).
  vm_compute. discriminate.
Defined.

(** X4. The loop is left waiting in a send only with [connectChange] full:
    when it is found in a send, the channel holds a value nobody has
    taken. *)
Theorem loop_waits_only_on_a_full_channel (reads : list readResult) (m : Modem) :
  fst (cmdListen reads m) = InSend ->
  (1 <= List.length (connectChange (snd (cmdListen reads m))))%nat.
Proof.
  intros H. destruct (cmdListen_ports reads m) as [ E | (_ & _ & H3) ].
  - rewrite H in E. discriminate.
  - apply H3. exact H.
Qed.

Lemma loop_waits_only_on_a_full_channel_witness :
  (1 <= List.length
          (connectChange
             (snd (cmdListen
                     [ReadOk ("CONNECTED A B" ++ CR ++ "CONNECTED A B" ++ CR)]
                     startedModem))))%nat.
Proof.
  apply (loop_waits_only_on_a_full_channel
           [ReadOk ("CONNECTED A B" ++ CR ++ "CONNECTED A B" ++ CR)]
           startedModem).
  reflexivity.
Defined.

(** ** Keying, the busy flag and the records the loop goes past *)

Lemma keyed_nil (r : option (list bool)) : keyed [] r = r.
Proof. destruct r; simpl; [ rewrite app_nil_r | ]; reflexivity. Qed.

Lemma keyed_keyed (a b : list bool) (r : option (list bool)) :
  keyed b (keyed a r) = keyed (a ++ b)%list r.
Proof. destruct r; simpl; [ rewrite app_assoc | ]; reflexivity. Qed.

Lemma setPTT_keyed (on : bool) (m : Modem) : rig (setPTT on m) = keyed [on] (rig m).
Proof.
  unfold setPTT. destruct (rig m) eqn:E; cbn [rig set_rig]; rewrite ?E;
    reflexivity.
Qed.

Lemma setPTT_busy (on : bool) (m : Modem) : busy (setPTT on m) = busy m.
Proof. unfold setPTT. destruct (rig m); reflexivity. Qed.

Lemma debugPrint_rig (msg : string) (m : Modem) : rig (debugPrint msg m) = rig m.
Proof. apply (debugPrint_fields msg m). Qed.

Lemma debugPrint_busy (msg : string) (m : Modem) : busy (debugPrint msg m) = busy m.
Proof. apply (debugPrint_fields msg m). Qed.

Lemma handleCmd_Next_rig (c : string) (m m' : Modem) :
  handleCmd c m = Next m' ->
  rig m' = match keying c with
           | Some on => keyed [on] (rig m)
           | None => rig m
           end.
Proof.
  pose proof (debugPrint_fields ("got cmd: " ++ c) m)
    as (D1 & D2 & D3 & D4 & D5 & D6 & D7).
  unfold keying.
  destruct (String.eqb c "PTT ON") eqn:Eon.
  { apply String.eqb_eq in Eon. subst c. cbn [handleCmd String.eqb Ascii.eqb Bool.eqb].
    intros H. inversion H. rewrite setPTT_keyed, debugPrint_rig. reflexivity. }
  destruct (String.eqb c "PTT OFF") eqn:Eoff.
  { apply String.eqb_eq in Eoff. subst c. cbn [handleCmd String.eqb Ascii.eqb Bool.eqb].
    intros H. inversion H. rewrite setPTT_keyed, debugPrint_rig. reflexivity. }
  unfold handleCmd. rewrite Eon, Eoff. by_record c; intros H;
    try (inversion H; subst; cbn [rig set_busy logPrint set_logged];
         try exact D5; reflexivity).
  - destruct (handleDisconnect (debugPrint ("got cmd: " ++ c) m)); discriminate.
  - destruct (handleConnect (debugPrint ("got cmd: " ++ c) m)) as [ m1 | m1 ] eqn:Hd;
      [ | discriminate ].
    apply handleConnect_Done in Hd. inversion H; subst. exact D5.
Qed.

Lemma handleCmd_Next_busy (c : string) (m m' : Modem) :
  handleCmd c m = Next m' -> busy m' = busyAfter [c] (busy m).
Proof.
  pose proof (debugPrint_fields ("got cmd: " ++ c) m)
    as (D1 & D2 & D3 & D4 & D5 & D6 & D7).
  cbn [busyAfter].
  destruct (String.eqb c "BUSY ON") eqn:Eon.
  { apply String.eqb_eq in Eon. subst c. cbn [handleCmd String.eqb Ascii.eqb Bool.eqb].
    intros H. inversion H. reflexivity. }
  destruct (String.eqb c "BUSY OFF") eqn:Eoff.
  { apply String.eqb_eq in Eoff. subst c. cbn [handleCmd String.eqb Ascii.eqb Bool.eqb].
    intros H. inversion H. reflexivity. }
  unfold handleCmd. rewrite Eon, Eoff. by_record c; intros H;
    try (inversion H; subst; rewrite ?setPTT_busy;
         cbn [busy logPrint set_logged]; try exact D6; reflexivity).
  - destruct (handleDisconnect (debugPrint ("got cmd: " ++ c) m)); discriminate.
  - destruct (handleConnect (debugPrint ("got cmd: " ++ c) m)) as [ m1 | m1 ] eqn:Hd;
      [ | discriminate ].
    apply handleConnect_Done in Hd. inversion H; subst. exact D6.
Qed.

Lemma keyings_app (a b : list string) :
  keyings (a ++ b) = (keyings a ++ keyings b)%list.
Proof.
  induction a as [ | c a IH ]; simpl; [ reflexivity | ].
  destruct (keying c); simpl; rewrite IH; reflexivity.
Qed.

Lemma busyAfter_app (a b : list string) (f : bool) :
  busyAfter (a ++ b) f = busyAfter b (busyAfter a f).
Proof.
  revert f. induction a as [ | c a IH ]; intros f; simpl; [ reflexivity | ].
  apply IH.
Qed.

Lemma handleCmds_Next_rig_busy (cmds : list string) :
  forall m m' : Modem,
    handleCmds cmds m = Next m' ->
    rig m' = keyed (keyings cmds) (rig m)
    /\ busy m' = busyAfter cmds (busy m).
Proof.
  induction cmds as [ | c cmds IH ]; intros m m' H; simpl in H.
  - inversion H. simpl. rewrite keyed_nil. auto.
  - destruct (handleCmd c m) as [ m1 | m1 | m1 ] eqn:E; try discriminate.
    destruct (IH m1 m' H) as [I1 I2].
    pose proof (handleCmd_Next_rig c m m1 E) as R.
    pose proof (handleCmd_Next_busy c m m1 E) as B.
    split.
    + rewrite I1, R. cbn [keyings]. destruct (keying c).
      * rewrite keyed_keyed. reflexivity.
      * reflexivity.
    + rewrite I2, B. reflexivity.
Qed.

Lemma cmdListen_InRead_rig_busy (reads : list readResult) :
  forall m : Modem,
    fst (cmdListen reads m) = InRead ->
    rig (snd (cmdListen reads m)) = keyed (keyings (records reads)) (rig m)
    /\ busy (snd (cmdListen reads m)) = busyAfter (records reads) (busy m).
Proof.
  induction reads as [ | r reads IH ]; intros m.
  - simpl. destruct (cmdConn m); [ | discriminate ].
    intros _. simpl. rewrite keyed_nil. auto.
  - cbn [cmdListen]. destruct (cmdConn m); [ | discriminate ].
    destruct r as [ data | e ].
    + destruct (handleCmds (splitCR data) m) as [ m1 | m1 | m1 ] eqn:E;
        try discriminate.
      intros H. destruct (IH m1 H) as [I1 I2].
      destruct (handleCmds_Next_rig_busy _ _ _ E) as [R B].
      cbn [records]. rewrite keyings_app, busyAfter_app.
      rewrite I1, I2, R, B, keyed_keyed. auto.
    + intros H. destruct (IH _ H) as [I1 I2].
      destruct (debugPrint_fields ("cmdListen err: " ++ e) m)
        as (_ & _ & _ & _ & D5 & D6 & _).
      cbn [records]. rewrite I1, I2, D5, D6. auto.
Qed.

(** X5. When the loop has gone through all it read, the rig has been
    called once for every PTT ON and PTT OFF record, with [true] and
    [false], in the order of the records, and for nothing else; without a
    rig there is still none. *)
Theorem keying_follows_the_records (reads : list readResult) (m : Modem) :
  fst (cmdListen reads m) = InRead ->
  rig (snd (cmdListen reads m))
  = option_map (fun calls => (calls ++ keyings (records reads))%list) (rig m).
Proof.
  intros H. apply (cmdListen_InRead_rig_busy reads m H).
Qed.

Lemma keying_follows_the_records_witness :
  rig (snd (cmdListen
              [ReadOk ("PTT ON" ++ CR ++ "BUFFER 12" ++ CR);
               ReadErr "EOF";
               ReadOk ("PTT OFF" ++ CR)]
              (set_rig (Some []) startedModem)))
  = Some [true; false].
Proof.
  apply (keying_follows_the_records
           [ReadOk ("PTT ON" ++ CR ++ "BUFFER 12" ++ CR);
            ReadErr "EOF";
            ReadOk ("PTT OFF" ++ CR)]
           (set_rig (Some []) startedModem)).
  reflexivity.
Defined.

(** X6. When the loop has gone through all it read, the busy flag is that
    of the last BUSY ON or BUSY OFF record, and the flag it had when there
    was none. *)
Theorem busy_follows_the_records (reads : list readResult) (m : Modem) :
  fst (cmdListen reads m) = InRead ->
  busy (snd (cmdListen reads m)) = busyAfter (records reads) (busy m).
Proof.
  intros H. apply (cmdListen_InRead_rig_busy reads m H).
Qed.

Lemma busy_follows_the_records_witness :
  busy (snd (cmdListen
               [ReadOk ("BUSY ON" ++ CR ++ "BUSY OFF" ++ CR);
                ReadOk ("OK" ++ CR ++ "BUSY ON" ++ CR ++ "IAMALIVE" ++ CR)]
               startedModem))
  = true.
Proof.
  apply (busy_follows_the_records
           [ReadOk ("BUSY ON" ++ CR ++ "BUSY OFF" ++ CR);
            ReadOk ("OK" ++ CR ++ "BUSY ON" ++ CR ++ "IAMALIVE" ++ CR)]
           startedModem).
  reflexivity.
Defined.

Lemma logPrint_sameButLog (msg : string) (m : Modem) : sameButLog m (logPrint msg m).
Proof. unfold sameButLog, logPrint. destruct m. reflexivity. Qed.

Lemma handleCmd_passive (c : string) (m : Modem) :
  passive c -> exists m', handleCmd c m = Next m' /\ sameButLog m m'.
Proof.
  intros (H1 & H2 & H3 & H4 & H5 & H6).
  apply String.eqb_neq in H1, H2, H3, H4, H5.
  unfold handleCmd. rewrite H1, H2, H3, H4, H5, H6.
  by_record c; eexists; (split; [ reflexivity | ]);
    try apply sameButLog_refl; try apply debugPrint_sameButLog.
  eapply sameButLog_trans;
    [ apply debugPrint_sameButLog | apply logPrint_sameButLog ].
Qed.

Lemma handleCmds_passive (cmds : list string) :
  Forall passive cmds ->
  forall m : Modem, exists m', handleCmds cmds m = Next m' /\ sameButLog m m'.
Proof.
  induction 1 as [ | c cmds Hc _ IH ]; intros m; simpl.
  - exists m. split; [ reflexivity | apply sameButLog_refl ].
  - destruct (handleCmd_passive c m Hc) as (m1 & E & S1). rewrite E.
    destruct (IH m1) as (m2 & E2 & S2). exists m2.
    split; [ exact E2 | eapply sameButLog_trans; eassumption ].
Qed.

(** X7. Reads that hold only records the loop has nothing to do for (OK,
    IAMALIVE, BUFFER reports, empty and unknown records), and reads that
    fail, leave the session as it was but for the log, and the loop goes on
    reading: in particular a BUFFER report changes nothing in the modem. *)
Theorem passive_records_only_log (reads : list readResult) (m : Modem) :
  cmdConn m <> None ->
  Forall passive (records reads) ->
  fst (cmdListen reads m) = InRead /\ sameButLog m (snd (cmdListen reads m)).
Proof.
  revert m. induction reads as [ | r reads IH ]; intros m Hc Hp.
  - simpl. destruct (cmdConn m); [ | contradiction Hc; reflexivity ].
    split; [ reflexivity | apply sameButLog_refl ].
  - cbn [cmdListen]. destruct (cmdConn m) as [ t | ] eqn:Em;
      [ | contradiction Hc; reflexivity ].
    destruct r as [ data | e ]; cbn [records] in Hp.
    + apply Forall_app in Hp. destruct Hp as [Hd Hr].
      destruct (handleCmds_passive _ Hd m) as (m1 & E & S1). rewrite E.
      assert (Hc1 : cmdConn m1 <> None).
      { rewrite (handleCmds_Next_cmdConn _ _ _ E), Em. discriminate. }
      destruct (IH m1 Hc1 Hr) as [I1 I2].
      split; [ exact I1 | eapply sameButLog_trans; eassumption ].
    + assert (Hc1 : cmdConn (debugPrint ("cmdListen err: " ++ e) m) <> None).
      { rewrite debugPrint_cmdConn, Em. discriminate. }
      destruct (IH _ Hc1 Hp) as [I1 I2].
      split; [ exact I1 | ].
      eapply sameButLog_trans; [ apply debugPrint_sameButLog | exact I2 ].
Qed.

Lemma passive_records_only_log_witness :
  let r := cmdListen [ReadOk ("BUFFER 42" ++ CR ++ "OK" ++ CR);
                      ReadErr "EOF";
                      ReadOk ("REGISTERED N0CALL" ++ CR)]
                     (liveModem 7) in
  fst r = InRead /\ sameButLog (liveModem 7) (snd r).
Proof.
  apply (passive_records_only_log
           [ReadOk ("BUFFER 42" ++ CR ++ "OK" ++ CR);
            ReadErr "EOF";
            ReadOk ("REGISTERED N0CALL" ++ CR)]
           (liveModem 7)).
  - discriminate.
  - repeat constructor; discriminate.
Defined.

(** ** Reads and records *)

Lemma splitCR_cons (s : string) : exists h t, splitCR s = h :: t.
Proof.
  induction s as [ | c s (h & t & IH) ]; simpl.
  - eauto.
  - destruct (Ascii.eqb c (ascii_of_nat 13)); [ eauto | ].
    rewrite IH. eauto.
Qed.

Lemma splitCR_at_CR (d1 d2 : string) :
  splitCR (d1 ++ CR ++ d2) = (splitCR d1 ++ splitCR d2)%list.
Proof.
  induction d1 as [ | c d1 IH ].
  - reflexivity.
  - change ((String c d1 ++ CR ++ d2)%string)
      with (String c (d1 ++ CR ++ d2)%string).
    cbn [splitCR]. rewrite IH.
    destruct (Ascii.eqb c (ascii_of_nat 13)); [ reflexivity | ].
    destruct (splitCR_cons d1) as (h & t & E). rewrite E. reflexivity.
Qed.

(** X8. Where a read ends does not matter as long as it ends after a
    carriage return: the loop does with one read of two chunks joined by a
    carriage return what it does with a read of each chunk, in that order,
    whatever the chunks hold and whatever follows. *)
Theorem reads_split_at_a_carriage_return
  (d1 d2 : string) (rest : list readResult) (m : Modem) :
  cmdListen (ReadOk (d1 ++ CR ++ d2) :: rest) m
  = cmdListen (ReadOk d1 :: ReadOk d2 :: rest) m.
Proof.
  cbn [cmdListen]. destruct (cmdConn m) as [ t | ] eqn:Em; [ | reflexivity ].
  rewrite splitCR_at_CR, handleCmds_app.
  destruct (handleCmds (splitCR d1) m) as [ m1 | m1 | m1 ] eqn:E;
    try reflexivity.
  rewrite (handleCmds_Next_cmdConn _ _ _ E), Em. reflexivity.
Qed.

(** ** The teardown of a session *)

Lemma writeCmd_fields (cmd : string) (m : Modem) :
  lastState (snd (writeCmd cmd m)) = lastState m
  /\ connectChange (snd (writeCmd cmd m)) = connectChange m
  /\ rig (snd (writeCmd cmd m)) = rig m
  /\ toCall (snd (writeCmd cmd m)) = toCall m
  /\ dataConn (snd (writeCmd cmd m)) = dataConn m.
Proof.
  unfold writeCmd.
  destruct (tcp_write (cmdConn (debugPrint ("writing cmd: " ++ cmd) m))
                      (list_byte_of_string (cmd ++ CR))) as [err c].
  cbn [snd lastState connectChange rig toCall dataConn set_cmdConn].
  destruct (debugPrint_fields ("writing cmd: " ++ cmd) m)
    as (_ & D2 & D3 & D4 & D5 & _ & D7).
  auto.
Qed.

Lemma writeCmd_error (cmd : string) (m : Modem) (e : error) :
  fst (writeCmd cmd m) = Some e -> sentCmds (snd (writeCmd cmd m)) = sentCmds m.
Proof.
  unfold writeCmd. rewrite debugPrint_cmdConn.
  destruct (cmdConn m) as [ t | ] eqn:Hc.
  - unfold tcp_write. destruct (down t); [ | discriminate ].
    intros _. unfold sentCmds. cbn [snd cmdConn set_cmdConn]. rewrite Hc.
    reflexivity.
  - intros _. unfold sentCmds. cbn [tcp_write snd cmdConn set_cmdConn].
    rewrite Hc. reflexivity.
Qed.

Lemma writeCmd_ok (cmd : string) (m : Modem) :
  fst (writeCmd cmd m) = None ->
  sentCmds (snd (writeCmd cmd m)) = (sentCmds m ++ [(cmd ++ CR)%string])%list.
Proof.
  intros H. unfold writeCmd in H. rewrite debugPrint_cmdConn in H.
  destruct (cmdConn m) as [ t | ] eqn:Hc; [ | discriminate ].
  unfold tcp_write in H. destruct (down t) eqn:Hd; [ discriminate | ].
  apply (writeCmd_sent cmd m t Hc Hd).
Qed.

(** The commands [Close] of [Modem] sends on a modem: ABORT when there is a
    command port. *)
Lemma ModemClose_unfold (m : Modem) (later : option connectedState) :
  ModemClose m later
  = let r := match cmdConn m with
             | None => (None, m)
             | Some _ => writeCmd "ABORT" m
             end in
    match fst r with
    | Some e => (Returned (Some e), snd r)
    | None =>
        if connectedState_eqb (lastState (snd r)) connected then
          match chan_recv (connectChange (snd r)) later with
          | None => (Blocked, snd r)
          | Some (s, q) =>
              if negb (connectedState_eqb s disconnected)
              then (Returned (Some errDisconnectFailed),
                    set_connectChange q (snd r))
              else (Returned None,
                    set_toCall "" (setPTT false (set_connectChange q (snd r))))
          end
        else (Returned None, set_toCall "" (setPTT false (snd r)))
    end.
Proof.
  unfold ModemClose.
  destruct (match cmdConn m with
            | None => (None, m)
            | Some _ => writeCmd "ABORT" m
            end) as [err m1].
  reflexivity.
Qed.

Lemma ModemClose_abort (m : Modem) :
  let r := match cmdConn m with
           | None => (None, m)
           | Some _ => writeCmd "ABORT" m
           end in
  lastState (snd r) = lastState m
  /\ connectChange (snd r) = connectChange m
  /\ rig (snd r) = rig m
  /\ toCall (snd r) = toCall m
  /\ (forall e, fst r = Some e -> sentCmds (snd r) = sentCmds m)
  /\ (fst r = None ->
      sentCmds (snd r)
      = (sentCmds m ++ match cmdConn m with
                       | Some _ => [("ABORT" ++ CR)%string]
                       | None => []
                       end)%list).
Proof.
  intros r. subst r. destruct (cmdConn m) as [ t | ] eqn:Hc.
  - destruct (writeCmd_fields "ABORT" m) as (F1 & F2 & F3 & F4 & _).
    repeat split; auto.
    + intros e. apply writeCmd_error.
    + apply writeCmd_ok.
  - cbn [fst snd]. repeat split; auto.
    intros _. rewrite app_nil_r. reflexivity.
Qed.

(** X9. When the teardown of a session returns nil, the transmitter has
    been unkeyed (the rig, if there is one, got a last call with [false]),
    the call sign dialled is cleared, ABORT and nothing else has been sent
    if there was a command port, and, if the state was [connected], the
    notification taken from [connectChange] was that of the disconnect. *)
Theorem ModemClose_done (m : Modem) (later : option connectedState) :
  fst (ModemClose m later) = Returned None ->
  toCall (snd (ModemClose m later)) = ""
  /\ rig (snd (ModemClose m later)) = keyed [false] (rig m)
  /\ sentCmds (snd (ModemClose m later))
     = (sentCmds m ++ match cmdConn m with
                      | Some _ => [("ABORT" ++ CR)%string]
                      | None => []
                      end)%list
  /\ (lastState m = connected ->
      exists q, chan_recv (connectChange m) later = Some (disconnected, q)).
Proof.
  rewrite ModemClose_unfold. cbv zeta.
  destruct (ModemClose_abort m) as (A1 & A2 & A3 & A4 & A5 & A6).
  destruct (fst (match cmdConn m with
                 | None => (None, m)
                 | Some _ => writeCmd "ABORT" m
                 end)) as [ e | ] eqn:Ef; [ discriminate | ].
  specialize (A6 eq_refl).
  rewrite A1, A2.
  destruct (connectedState_eqb (lastState m) connected) eqn:Es.
  - destruct (chan_recv (connectChange m) later) as [ [s q] | ] eqn:Er;
      [ | discriminate ].
    destruct s; cbn [connectedState_eqb negb]; [ discriminate | ].
    intros _. cbn [fst snd]. split; [ reflexivity | ]. split; [ | split ].
    + cbn [rig set_toCall]. rewrite setPTT_keyed.
      cbn [rig set_connectChange]. rewrite A3. reflexivity.
    + unfold sentCmds. cbn [cmdConn set_toCall]. rewrite setPTT_cmdConn.
      cbn [cmdConn set_connectChange]. exact A6.
    + intros _. exists q. reflexivity.
  - intros _. cbn [fst snd]. split; [ reflexivity | ]. split; [ | split ].
    + cbn [rig set_toCall]. rewrite setPTT_keyed, A3. reflexivity.
    + unfold sentCmds. cbn [cmdConn set_toCall]. rewrite setPTT_cmdConn.
      exact A6.
    + intros Hl. rewrite Hl in Es. discriminate.
Qed.

Lemma ModemClose_done_witness :
  let r := ModemClose (set_rig (Some [true]) (liveModem 0)) (Some disconnected) in
  toCall (snd r) = ""
  /\ rig (snd r) = Some [true; false]
  /\ sentCmds (snd r) = [("ABORT" ++ CR)%string].
Proof.
  destruct (ModemClose_done (set_rig (Some [true]) (liveModem 0))
                            (Some disconnected) eq_refl)
    as (H1 & H2 & H3 & _).
  repeat split; assumption.
Defined.

(** X10. When the teardown of a session returns an error, it has neither
    unkeyed the transmitter nor cleared the call sign dialled.  The error
    is that of the write of ABORT, in which case nothing has been sent, or
    it is "disconnect failed", in which case the state was [connected] and
    the notification taken from [connectChange] was not that of the
    disconnect. *)
Theorem ModemClose_failed (m : Modem) (later : option connectedState) (e : error) :
  fst (ModemClose m later) = Returned (Some e) ->
  rig (snd (ModemClose m later)) = rig m
  /\ toCall (snd (ModemClose m later)) = toCall m
  /\ ((fst (writeCmd "ABORT" m) = Some e /\ cmdConn m <> None
       /\ sentCmds (snd (ModemClose m later)) = sentCmds m)
      \/ (e = errDisconnectFailed /\ lastState m = connected
          /\ exists q, chan_recv (connectChange m) later = Some (connected, q))).
Proof.
  rewrite ModemClose_unfold. cbv zeta.
  destruct (ModemClose_abort m) as (A1 & A2 & A3 & A4 & A5 & A6).
  destruct (fst (match cmdConn m with
                 | None => (None, m)
                 | Some _ => writeCmd "ABORT" m
                 end)) as [ e' | ] eqn:Ef.
  - intros H. inversion H; subst e'. cbn [fst snd].
    split; [ exact A3 | ]. split; [ exact A4 | ]. left.
    destruct (cmdConn m) as [ t | ] eqn:Hc; [ | discriminate ].
    split; [ exact Ef | ]. split; [ discriminate | ].
    apply (A5 e eq_refl).
  - rewrite A1, A2.
    destruct (connectedState_eqb (lastState m) connected) eqn:Es;
      [ | discriminate ].
    destruct (chan_recv (connectChange m) later) as [ [s q] | ] eqn:Er;
      [ | discriminate ].
    destruct s; cbn [connectedState_eqb negb]; [ | discriminate ].
    intros H. inversion H. cbn [fst snd].
    split; [ exact A3 | ]. split; [ exact A4 | ]. right.
    split; [ reflexivity | ]. split.
    + apply connectedState_eqb_eq. exact Es.
    + exists q. reflexivity.
Qed.

Lemma ModemClose_failed_witness :
  let m := set_connectChange [connected] (set_rig (Some [true]) (liveModem 0)) in
  rig (snd (ModemClose m None)) = Some [true]
  /\ toCall (snd (ModemClose m None)) = toCall m.
Proof.
  destruct (ModemClose_failed
              (set_connectChange [connected] (set_rig (Some [true]) (liveModem 0)))
              None errDisconnectFailed eq_refl)
    as (H1 & H2 & _).
  split; assumption.
Defined.

(** X11. The teardown of a session waits for ever in exactly one case:
    ABORT went out or there is no command port, the state is [connected],
    [connectChange] holds nothing and the loop never sends a
    notification. *)
Theorem ModemClose_blocks_iff (m : Modem) (later : option connectedState) :
  fst (ModemClose m later) = Blocked
  <-> ((cmdConn m = None \/ fst (writeCmd "ABORT" m) = None)
       /\ lastState m = connected
       /\ connectChange m = []
       /\ later = None).
Proof.
  rewrite ModemClose_unfold. cbv zeta.
  destruct (ModemClose_abort m) as (A1 & A2 & A3 & A4 & A5 & A6).
  destruct (cmdConn m) as [ t | ] eqn:Hc.
  - destruct (fst (writeCmd "ABORT" m)) as [ e | ] eqn:Ef.
    + split; [ discriminate | ].
      intros ([ H | H ] & _); discriminate.
    + rewrite A1, A2. clear A5 A6.
      destruct (lastState m); cbn [connectedState_eqb].
      * destruct (connectChange m) as [ | s q ]; cbn [chan_recv].
        -- destruct later as [ s | ].
           ++ destruct s; cbn [connectedState_eqb negb]; split;
                try discriminate; intros (_ & _ & _ & H); discriminate.
           ++ split; auto.
        -- destruct s; cbn [connectedState_eqb negb]; split;
             try discriminate; intros (_ & _ & H & _); discriminate.
      * split; [ discriminate | intros (_ & H & _); discriminate ].
  - cbn [fst snd].
    destruct (lastState m); cbn [connectedState_eqb].
    + destruct (connectChange m) as [ | s q ]; cbn [chan_recv].
      * destruct later as [ s | ].
        -- destruct s; cbn [connectedState_eqb negb]; split;
             try discriminate; intros (_ & _ & _ & H); discriminate.
        -- split; auto.
      * destruct s; cbn [connectedState_eqb negb]; split;
          try discriminate; intros (_ & _ & H & _); discriminate.
    + split; [ discriminate | intros (_ & H & _); discriminate ].
Qed.

(** X12. Once the loop has returned after a DISCONNECTED record, the
    teardown of the session returns nil without waiting and without
    sending: there is no command port to send ABORT on, and the
    notification of the disconnect is not needed and stays in
    [connectChange]. *)
Theorem ModemClose_after_the_loop
  (reads : list readResult) (m : Modem) (later : option connectedState) :
  fst (cmdListen reads m) = ExitedDisconnected ->
  let m' := snd (cmdListen reads m) in
  fst (ModemClose m' later) = Returned None
  /\ toCall (snd (ModemClose m' later)) = ""
  /\ connectChange (snd (ModemClose m' later)) = connectChange m'
  /\ cmdConn (snd (ModemClose m' later)) = None.
Proof.
  intros H m'. subst m'.
  assert (T : cmdConn (snd (cmdListen reads m)) = None
              /\ lastState (snd (cmdListen reads m)) = disconnected).
  { revert m H. induction reads as [ | r reads IH ]; intros m.
    - simpl. destruct (cmdConn m); discriminate.
    - cbn [cmdListen]. destruct (cmdConn m); [ | discriminate ].
      destruct r as [ data | e ]; [ | apply IH ].
      destruct (handleCmds (splitCR data) m) as [ m1 | m1 | m1 ] eqn:E.
      + apply IH.
      + intros _. cbn [snd].
        destruct (handleCmds_Return_state _ m m1 E) as (H1 & _ & H3 & _).
        auto.
      + discriminate. }
  destruct T as [Tc Ts].
  set (m' := snd (cmdListen reads m)) in *.
  rewrite ModemClose_unfold. cbv zeta. rewrite Tc. cbn [fst snd].
  rewrite Ts. cbn [connectedState_eqb fst snd].
  split; [ reflexivity | ]. split; [ reflexivity | ]. split.
  - cbn [connectChange set_toCall]. unfold setPTT.
    destruct (rig m'); reflexivity.
  - cbn [cmdConn set_toCall]. rewrite setPTT_cmdConn. exact Tc.
Qed.

Lemma ModemClose_after_the_loop_witness :
  let m' := snd (cmdListen [ReadOk ("DISCONNECTED" ++ CR)] (liveModem 0)) in
  fst (ModemClose m' None) = Returned None
  /\ toCall (snd (ModemClose m' None)) = ""
  /\ connectChange (snd (ModemClose m' None)) = connectChange m'
  /\ cmdConn (snd (ModemClose m' None)) = None.
Proof.
  apply (ModemClose_after_the_loop
           [ReadOk ("DISCONNECTED" ++ CR)] (liveModem 0) None).
  reflexivity.
Defined.

(** * Further properties of the stream *)

(** ** Flush *)

Lemma ready_at_ge {A : Type} (now : Z) (a : arrival A) : now <= ready_at now a.
Proof. unfold ready_at. lia. Qed.

Lemma fires_at_ge (now deadline : Z) : now <= fires_at now deadline.
Proof. unfold fires_at. lia. Qed.

Lemma flushLoop_outcomes (pb : string -> Z) (cmds : inbox) :
  forall count now deadline : Z,
    let f := flushLoop pb count now deadline cmds in
    ops f = []
    /\ (result f = Returned None \/ result f = Returned (Some EOF)
        \/ result f = Returned (Some ErrFlushTimeout))
    /\ now <= ended f.
Proof.
  induction cmds as [ | a cmds IH ]; intros count now deadline; simpl;
    destruct (0 <? count); simpl;
    try (pose proof (fires_at_ge now deadline); repeat split; auto; lia).
  destruct (takes_recv now deadline a); simpl;
    [ | pose proof (fires_at_ge now deadline); repeat split; auto ].
  pose proof (ready_at_ge now a) as Hr.
  destruct (what a) as [ cmd | ]; simpl; [ | repeat split; auto ].
  destruct (String.eqb cmd disconnectedCmd); simpl; [ repeat split; auto | ].
  destruct (IH (pb cmd) (ready_at now a) (ready_at now a + Clock.Minute))
    as (I1 & I2 & I3).
  repeat split; auto. lia.
Qed.

(** ** Write *)

Lemma throttle_outcomes (pb : string -> Z) (v : conn) (b : list Byte.byte)
      (cmds : inbox) :
  forall count now deadline : Z,
    match throttle pb v b count now deadline cmds with
    | Proceed _ t _ => now <= t
    | Failed e t _ => now <= t /\ (e = EOF \/ e = ErrWriteTimeout)
    end.
Proof.
  induction cmds as [ | a cmds IH ]; intros count now deadline; simpl;
    destruct ((count >=? GoInt.mul magicNumber (GoInt.len b))
              && negb (closing v));
    try lia;
    try (pose proof (fires_at_ge now deadline); split; auto; lia).
  pose proof (ready_at_ge now a) as Hr.
  destruct (takes_recv now deadline a);
    [ | pose proof (fires_at_ge now deadline); split; auto ].
  destruct (what a) as [ cmd | ]; [ | split; auto ].
  destruct (String.eqb cmd disconnectedCmd); [ split; auto | ].
  specialize (IH (pb cmd) (ready_at now a) (ready_at now a + Clock.Minute)).
  destruct (throttle pb v b (pb cmd) (ready_at now a)
                     (ready_at now a + Clock.Minute) cmds);
    [ lia | destruct IH; split; auto; lia ].
Qed.

Lemma awaitDisconnect_later (cmds : inbox) :
  forall (now t : Z) (rest : inbox),
    awaitDisconnect now cmds = Some (t, rest) -> now <= t.
Proof.
  induction cmds as [ | a cmds IH ]; intros now t rest H; simpl in H.
  - discriminate.
  - pose proof (ready_at_ge now a) as Hr.
    destruct (what a) as [ cmd | ].
    + destruct (String.eqb cmd disconnectedCmd).
      * inversion H; subst. exact Hr.
      * apply IH in H. lia.
    + inversion H; subst. exact Hr.
Qed.

(** What a call of [Write] can come to. *)
Lemma Write_shape (pb : string -> Z) (v : conn) (b : list Byte.byte) (now : Z)
      (cmds : inbox) (io : Z * goerror) :
  let w := Write pb v b now cmds io in
  now <= ended w
  /\ ((ops w = []
       /\ (result w = Returned (0, Some EOF)
           \/ result w = Returned (0, Some ErrWriteTimeout)
           \/ (result w = Blocked /\ closing v = true
               /\ connState (modem v) = connected)))
      \/ (ops w = [Incr (GoInt.len b); DataWrite b]
          /\ result w = Returned io
          /\ closing v = false /\ connState (modem v) = connected)).
Proof.
  unfold Write, BufferCounter.get.
  destruct (notConnected v) eqn:Hn.
  - simpl. split; [ lia | ]. left. split; [ reflexivity | ]. left. reflexivity.
  - apply notConnected_false in Hn.
    pose proof (throttle_outcomes pb v b cmds (bufferCount (modem v)) now
                                  (now + Clock.Minute)) as T.
    destruct (throttle pb v b (bufferCount (modem v)) now
                       (now + Clock.Minute) cmds) as [ c t rest | e t rest ].
    + destruct (closing v) eqn:Hc; cbn [andb negb].
      * destruct (awaitDisconnect t rest) as [ [t' rest'] | ] eqn:Ea; simpl.
        -- apply awaitDisconnect_later in Ea. split; [ lia | ].
           left. split; [ reflexivity | ]. left. reflexivity.
        -- split; [ exact T | ].
           left. split; [ reflexivity | ]. right. right. auto.
      * simpl. split; [ exact T | ]. right. auto.
    + destruct T as [T1 [ -> | -> ]]; simpl; (split; [ exact T1 | ]);
        left; (split; [ reflexivity | ]).
      * left. reflexivity.
      * right. left. reflexivity.
Qed.

Lemma throttle_nothing (pb : string -> Z) (v : conn) :
  (forall s : string, 0 <= pb s) ->
  closing v = false ->
  forall (cmds : inbox) (count now deadline : Z),
    0 <= count ->
    exists e t rest, throttle pb v [] count now deadline cmds = Failed e t rest.
Proof.
  intros Hnn Hc.
  assert (E : forall count, 0 <= count ->
                (count >=? GoInt.mul magicNumber (GoInt.len (@nil Byte.byte)))
                && negb (closing v) = true).
  { intros count H. rewrite Hc.
    change (GoInt.mul magicNumber (GoInt.len (@nil Byte.byte))) with 0.
    rewrite Z.geb_leb. apply andb_true_iff. split; [ | reflexivity ].
    apply Z.leb_le. exact H. }
  induction cmds as [ | a cmds IH ]; intros count now deadline H; simpl;
    rewrite (E count H); [ eauto | ].
  destruct (takes_recv now deadline a); [ | eauto ].
  destruct (what a) as [ cmd | ]; [ | eauto ].
  destruct (String.eqb cmd disconnectedCmd); [ eauto | ].
  apply IH. apply Hnn.
Qed.

(** X15. A [Write] of no bytes never goes through: with a Buffer Count and
    reports that are not negative, the threshold [7 * 0] is always reached,
    so the call does nothing to the counter and the data port and ends in
    end-of-stream or in the write timeout (or waits for the disconnect in
    graceful-closing mode). *)
Theorem Write_of_no_bytes
  (pb : string -> Z) (v : conn) (now : Z) (cmds : inbox) (io : Z * goerror) :
  (forall s : string, 0 <= pb s) ->
  0 <= bufferCount (modem v) ->
  let w := Write pb v [] now cmds io in
  ops w = []
  /\ (result w = Returned (0, Some EOF)
      \/ result w = Returned (0, Some ErrWriteTimeout)
      \/ result w = Blocked).
Proof.
  intros Hnn Hc w.
  destruct (Write_shape pb v [] now cmds io)
    as [ _ [ (H1 & [ H | [ H | (H & _) ] ]) | (H1 & H2 & H3 & H4) ] ];
    fold w in H1; try fold w in H; try (split; auto; fail).
  exfalso. revert H1. subst w. unfold Write, BufferCounter.get.
  apply notConnected_false in H4. rewrite H4.
  destruct (throttle_nothing pb v Hnn H3 cmds (bufferCount (modem v)) now
                             (now + Clock.Minute) Hc) as (e & t & rest & E).
  rewrite E. discriminate.
Qed.

Lemma Write_of_no_bytes_witness :
  let w := Write parseBufferRef (liveConn 0) [] 0
                 [mkArrival 3 (Msg "BUFFER 0") false] (0, None) in
  ops w = []
  /\ (result w = Returned (0, Some EOF)
      \/ result w = Returned (0, Some ErrWriteTimeout)
      \/ result w = Blocked).
Proof.
  apply (Write_of_no_bytes parseBufferRef (liveConn 0) 0
           [mkArrival 3 (Msg "BUFFER 0") false] (0, None)).
  - exact parseBufferRef_nonneg.
  - vm_compute. discriminate.
Defined.

Lemma throttle_keeps_terminal (pb : string -> Z) (v : conn) (b : list Byte.byte)
      (cmds : inbox) :
  forall (count now deadline c t : Z) (rest : inbox),
    throttle pb v b count now deadline cmds = Proceed c t rest ->
    Exists terminal cmds -> Exists terminal rest.
Proof.
  induction cmds as [ | a cmds IH ]; intros count now deadline c t rest H Hex;
    simpl in H;
    destruct ((count >=? GoInt.mul magicNumber (GoInt.len b))
              && negb (closing v));
    try discriminate; try (inversion H; subst; exact Hex).
  destruct (takes_recv now deadline a); [ | discriminate ].
  destruct (what a) as [ cmd | ] eqn:Ea; [ | discriminate ].
  destruct (String.eqb cmd disconnectedCmd) eqn:Ed; [ discriminate | ].
  apply (IH _ _ _ _ _ _ H).
  inversion Hex as [ x l Ht | x l Ht ]; subst; [ | exact Ht ].
  exfalso. destruct Ht as [ Ht | Ht ]; rewrite Ea in Ht; [ | discriminate ].
  inversion Ht; subst. rewrite String.eqb_refl in Ed. discriminate.
Qed.

Lemma awaitDisconnect_terminal (cmds : inbox) :
  Exists terminal cmds ->
  forall now : Z, exists t rest, awaitDisconnect now cmds = Some (t, rest).
Proof.
  induction cmds as [ | a cmds IH ]; intros Hex now.
  - inversion Hex.
  - simpl. destruct (what a) as [ cmd | ] eqn:Ea; [ | eauto ].
    destruct (String.eqb cmd disconnectedCmd) eqn:Ed; [ eauto | ].
    apply IH. inversion Hex as [ x l Ht | x l Ht ]; subst; [ | exact Ht ].
    exfalso. destruct Ht as [ Ht | Ht ]; rewrite Ea in Ht; [ | discriminate ].
    inversion Ht; subst. rewrite String.eqb_refl in Ed. discriminate.
Qed.

(** X16. The disconnect always ends a [Write]: when the disconnect (or the
    end of the subscription) is among the deliveries to come, wherever it
    is, the call returns, in graceful-closing mode or not. *)
Theorem disconnect_ends_Write
  (pb : string -> Z) (v : conn) (b : list Byte.byte) (now : Z)
  (cmds : inbox) (io : Z * goerror) :
  Exists terminal cmds ->
  exists r : Z * goerror, result (Write pb v b now cmds io) = Returned r.
Proof.
  intros Hex. unfold Write, BufferCounter.get.
  destruct (notConnected v); [ eexists; reflexivity | ].
  destruct (throttle pb v b (bufferCount (modem v)) now
                     (now + Clock.Minute) cmds) as [ c t rest | e t rest ] eqn:E;
    [ | eexists; reflexivity ].
  destruct (closing v && negb false); [ | eexists; reflexivity ].
  apply (throttle_keeps_terminal pb v b cmds _ _ _ _ _ _ E) in Hex.
  destruct (awaitDisconnect_terminal rest Hex t) as (t' & rest' & Ea).
  rewrite Ea. eexists. reflexivity.
Qed.

Lemma disconnect_ends_Write_witness :
  exists r : Z * goerror,
    result (Write parseBufferRef (set_closing true (liveConn 99)) hello 0
                  [mkArrival 1 (Msg "BUFFER 80") false;
                   mkArrival 2 (Msg "DISCONNECTED") false] (5, None))
    = Returned r.
Proof.
  apply (disconnect_ends_Write parseBufferRef (set_closing true (liveConn 99))
           hello 0
           [mkArrival 1 (Msg "BUFFER 80") false;
            mkArrival 2 (Msg "DISCONNECTED") false] (5, None)).
  apply Exists_cons_tl. apply Exists_cons_hd. left. reflexivity.
Defined.

(** ** Close *)

Lemma closeBody_outcomes (v : conn) (now : Z) (cmds : inbox) :
  let c := fst (closeBody v now cmds) in
  ops c = []
  /\ (result c = Returned None \/ result c = Returned (Some ErrDisconnectTimeout))
  /\ now <= ended c <= now + 60 * Clock.Second.
Proof.
  assert (H60 : 0 < 60 * Clock.Second) by reflexivity.
  unfold closeBody.
  destruct (closed (modem v)); [ simpl; repeat split; auto; lia | ].
  cbn [modem set_closing].
  destruct (connectedState_eqb (connState (modem v)) disconnected);
    [ simpl; repeat split; auto; lia | ].
  assert (Hf : fires_at now (now + 60 * Clock.Second) = now + 60 * Clock.Second)
    by (apply fires_at_due; lia).
  destruct cmds as [ | a rest ].
  - cbn [fst ops result ended]. rewrite Hf. repeat split; auto; lia.
  - destruct (takes_recv now (now + 60 * Clock.Second) a) eqn:Et.
    + apply takes_recv_inv in Et. pose proof (ready_at_ge now a).
      cbn [fst ops result ended]. repeat split; auto.
    + cbn [fst ops result ended]. rewrite Hf. repeat split; auto; lia.
Qed.

(** X17. [Close] always returns, within 60 seconds of the call and never
    before it, with nil or with the disconnect timeout, whatever is
    delivered to it and whatever the state of the stream. *)
Theorem Close_returns_within_60_seconds (v : conn) (now : Z) (cmds : inbox) :
  let c := fst (Close v now cmds) in
  (result c = Returned None \/ result c = Returned (Some ErrDisconnectTimeout))
  /\ now <= ended c <= now + 60 * Clock.Second.
Proof.
  assert (H60 : 0 < 60 * Clock.Second) by reflexivity.
  unfold Close. destruct (closeOnce v).
  - simpl. split; [ auto | lia ].
  - pose proof (closeBody_outcomes v now cmds) as H.
    destruct (closeBody v now cmds) as [c v']. cbn [fst] in *.
    destruct H as (_ & H1 & H2). auto.
Qed.

(** X18. A [Close] that finds the stream already closed by an earlier
    [Close], the modem closed, or the state [disconnected] returns nil at
    once, receives nothing and leaves the modem as it is: it sends no
    DISCONNECT and no ABORT. *)
Theorem Close_of_a_stream_that_is_down (v : conn) (now : Z) (cmds : inbox) :
  closeOnce v = true \/ closed (modem v) = true
  \/ connState (modem v) = disconnected ->
  fst (Close v now cmds) = mkCall (Returned None) [] now cmds
  /\ modem (snd (Close v now cmds)) = modem v.
Proof.
  intros H. unfold Close, closeBody.
  destruct (closeOnce v); [ split; reflexivity | ].
  destruct (closed (modem v)); [ split; reflexivity | ].
  destruct H as [ H | [ H | H ] ]; try discriminate.
  cbn [modem set_closing]. rewrite H. split; reflexivity.
Qed.

Lemma Close_of_a_stream_that_is_down_witness :
  let v := newConn (NewModem "N0CALL" false) "LA5NTA" in
  fst (Close v 0 []) = mkCall (Returned None) [] 0 []
  /\ modem (snd (Close v 0 [])) = modem v.
Proof.
  apply (Close_of_a_stream_that_is_down
           (newConn (NewModem "N0CALL" false) "LA5NTA") 0 []).
  right. right. reflexivity.
Defined.

Lemma Close_sets_closing (v : conn) (now : Z) (cmds : inbox) :
  closeOnce v = false -> closed (modem v) = false ->
  closing (snd (Close v now cmds)) = true
  /\ closeOnce (snd (Close v now cmds)) = true.
Proof.
  intros Ho Hc. unfold Close, closeBody. rewrite Ho, Hc.
  cbn [modem set_closing].
  destruct (connectedState_eqb (connState (modem v)) disconnected);
    [ split; reflexivity | ].
  destruct cmds as [ | a rest ]; [ split; reflexivity | ].
  destruct (takes_recv now (now + 60 * Clock.Second) a); split; reflexivity.
Qed.

(** X19. Once [Close] has run on a stream whose modem is not closed, the
    stream is in graceful-closing mode for good: every later [Write] leaves
    the Buffer Count and the data port alone, whatever the state of the
    connection and whatever it is given, every later [Flush] returns nil at
    once, and every later [Close] returns nil at once. *)
Theorem nothing_is_written_after_Close
  (pb : string -> Z) (v : conn) (now : Z) (cmds : inbox) :
  closeOnce v = false ->
  closed (modem v) = false ->
  let v' := snd (Close v now cmds) in
  closing v' = true
  /\ (forall (b : list Byte.byte) (now' : Z) (cmds' : inbox) (io : Z * goerror),
         ops (Write pb v' b now' cmds' io) = [])
  /\ (forall (now' : Z) (cmds' : inbox),
         Flush pb v' now' cmds' = mkCall (Returned None) [] now' cmds')
  /\ (forall (now' : Z) (cmds' : inbox),
         Close v' now' cmds' = (mkCall (Returned None) [] now' cmds', v')).
Proof.
  intros Ho Hc v'.
  destruct (Close_sets_closing v now cmds Ho Hc) as [H1 H2]. fold v' in H1, H2.
  split; [ exact H1 | ]. split; [ | split ].
  - intros b now' cmds' io.
    destruct (Write_shape pb v' b now' cmds' io)
      as [ _ [ (H & _) | (_ & _ & H & _) ] ]; [ exact H | congruence ].
  - intros now' cmds'. unfold Flush. rewrite H1. reflexivity.
  - intros now' cmds'. unfold Close. rewrite H2. reflexivity.
Qed.

Lemma nothing_is_written_after_Close_witness :
  let v' := snd (Close (liveConn 0) 0 [mkArrival 4 (Msg "DISCONNECTED") false]) in
  closing v' = true
  /\ ops (Write parseBufferRef v' hello 9 [] (5, None)) = []
  /\ Flush parseBufferRef v' 9 [] = mkCall (Returned None) [] 9 [].
Proof.
  destruct (nothing_is_written_after_Close parseBufferRef (liveConn 0) 0
              [mkArrival 4 (Msg "DISCONNECTED") false] eq_refl eq_refl)
    as (H1 & H2 & H3 & _).
  split; [ exact H1 | ]. split; [ apply H2 | apply H3 ].
Defined.

(** ** Read *)


(** ** The connect *)

Lemma chan_send_1 {A : Type} (q : list A) (x : A) :
  chan_send 1 q x = match q with
                    | [] => Some [x]
                    | _ :: _ => None
                    end.
Proof. destruct q as [ | y [ | z q ] ]; reflexivity. Qed.

(** X21. A record that starts with CONNECTED makes the state [connected]
    first and then notifies: with [connectChange] empty the notification is
    placed on it and the loop goes on to the next record, the ports, the
    rig and the busy flag untouched; with a value still on it the loop is
    left in the send, the state already [connected]. *)
Theorem connected_record (c : string) (m : Modem) :
  prefix "CONNECTED" c = true ->
  let m0 := debugPrint ("got cmd: " ++ c) m in
  (connectChange m = [] ->
   handleCmd c m
   = Next (set_connectChange [connected] (set_lastState connected m0)))
  /\ (connectChange m <> [] ->
      handleCmd c m = Waiting (set_lastState connected m0)).
Proof.
  intros Hp m0.
  assert (E : handleCmd c m
              = match handleConnect m0 with
                | Done m' => Next m'
                | Sending m' => Waiting m'
                end).
  { destruct c as [ | a c' ]; [ discriminate | ].
    cbn [prefix] in Hp.
    destruct (ascii_dec "C" a) as [ <- | ]; [ | discriminate ].
    unfold handleCmd. fold m0.
    change (prefix "CONNECTED" (String "C" c')) with (prefix "ONNECTED" c').
    rewrite Hp. reflexivity. }
  rewrite E. unfold handleConnect. rewrite chan_send_1.
  cbn [connectChange set_lastState].
  replace (connectChange m0) with (connectChange m)
    by (symmetry; apply debugPrint_connectChange).
  split; intros H.
  - rewrite H. reflexivity.
  - destruct (connectChange m); [ contradiction H; reflexivity | reflexivity ].
Qed.

Lemma connected_record_witness :
  handleCmd "CONNECTED N0CALL LA5NTA" startedModem
  = Next (set_connectChange [connected]
            (set_lastState connected
               (debugPrint "got cmd: CONNECTED N0CALL LA5NTA" startedModem))).
Proof.
  destruct (connected_record "CONNECTED N0CALL LA5NTA" startedModem eq_refl)
    as [H _].
  apply H. reflexivity.
Defined.

(** * The loops that restart their timer *)

Lemma flushLoop_kept (pb : string -> Z) (cmds : inbox) :
  forall count now : Z,
    0 < count ->
    keepFlushing pb now cmds ->
    flushLoop pb count now (now + Clock.Minute) cmds
    = mkCall (Returned (Some ErrFlushTimeout)) []
             (wokenAt now cmds + Clock.Minute) [].
Proof.
  pose proof Minute_pos as Hmin.
  induction cmds as [ | a cmds IH ]; intros count now Hpos Hk;
    cbn [flushLoop]; apply Z.ltb_lt in Hpos; rewrite Hpos.
  - rewrite fires_at_due by lia. reflexivity.
  - destruct Hk as (Hin & (c & Hw & Hnd & Hbusy) & Hrest).
    rewrite takes_recv_before by (apply ready_before; assumption).
    rewrite Hw. apply String.eqb_neq in Hnd. rewrite Hnd.
    rewrite (IH (pb c) (ready_at now a) Hbusy Hrest). reflexivity.
Qed.

(** X13. [Flush] never touches the Buffer Count or the data port, never
    returns before the call and returns no other error than end-of-stream
    and the flush timeout.  It is not bounded in time: however many reports
    of a buffer that is not empty are delivered, each less than a minute
    after the one before, [Flush] takes them all and is still waiting; it
    gives up one minute after the last of them. *)
Theorem Flush_is_kept_waiting (pb : string -> Z) (v : conn) (now : Z) :
  (forall cmds : inbox,
      let f := Flush pb v now cmds in
      ops f = []
      /\ now <= ended f
      /\ (forall e : error,
             result f = Returned (Some e) -> e = EOF \/ e = ErrFlushTimeout))
  /\ (closing v = false ->
      0 < bufferCount (modem v) ->
      forall cmds : inbox,
        keepFlushing pb now cmds ->
        Flush pb v now cmds
        = mkCall (Returned (Some ErrFlushTimeout)) []
                 (wokenAt now cmds + Clock.Minute) []).
Proof.
  split.
  - intros cmds f. subst f. unfold Flush. destruct (closing v).
    + simpl. split; [ reflexivity | ]. split; [ lia | ].
      intros e H. discriminate.
    + destruct (flushLoop_outcomes pb cmds
                  (BufferCounter.get (bufferCount (modem v))) now
                  (now + Clock.Minute)) as (H1 & H2 & H3).
      split; [ exact H1 | ]. split; [ exact H3 | ].
      intros e He. rewrite He in H2.
      destruct H2 as [ H | [ H | H ] ]; inversion H; auto.
  - intros Hc Hpos cmds Hk. unfold Flush, BufferCounter.get. rewrite Hc.
    apply flushLoop_kept; assumption.
Qed.

Lemma throttle_kept (pb : string -> Z) (v : conn) (b : list Byte.byte)
      (cmds : inbox) :
  closing v = false ->
  GoInt.len b <= GoInt.maxAlloc ->
  forall count now : Z,
    7 * GoInt.len b <= count ->
    keepThrottled pb b now cmds ->
    throttle pb v b count now (now + Clock.Minute) cmds
    = Failed ErrWriteTimeout (wokenAt now cmds + Clock.Minute) [].
Proof.
  intros Hc Hb. pose proof (mul_len b Hb) as Hm.
  pose proof Minute_pos as Hmin.
  induction cmds as [ | a cmds IH ]; intros count now Hge Hk;
    assert (Hfull : GoInt.mul magicNumber (GoInt.len b) <= count)
      by (rewrite Hm; exact Hge).
  - apply (throttle_timeout pb v b count now (now + Clock.Minute) [] Hc Hfull);
      [ lia | left; reflexivity ].
  - destruct Hk as (Hin & (c & Hw & Hnd & Hstale) & Hrest).
    assert (Ht : takes_recv now (now + Clock.Minute) a = true)
      by (apply takes_recv_before; apply ready_before; assumption).
    rewrite (throttle_step pb v b count now _ a cmds c Hc Hfull Ht Hw Hnd).
    rewrite (IH (pb c) (ready_at now a) Hstale Hrest). reflexivity.
Qed.

(** X14. A call of [Write] does all or nothing: either it does nothing to
    the Buffer Count and the data port, and if it returns it returns 0 with
    end-of-stream or with the write timeout; or it increments the Buffer
    Count by [len(b)], hands [b] to the data port and returns what the data
    port answers, the increment being made before the write and kept when
    the write fails.  It never returns before the call.  It is not bounded
    in time: on a connected stream that is not closing, however many
    reports at or above the threshold are delivered, each less than a
    minute after the one before, [Write] takes them all, sends nothing and
    is still waiting; it gives up one minute after the last of them. *)
Theorem Write_is_kept_waiting
  (pb : string -> Z) (v : conn) (b : list Byte.byte) (now : Z)
  (io : Z * goerror) :
  (forall cmds : inbox,
      let w := Write pb v b now cmds io in
      now <= ended w
      /\ ((ops w = []
           /\ forall r : Z * goerror,
               result w = Returned r ->
               r = (0, Some EOF) \/ r = (0, Some ErrWriteTimeout))
          \/ (ops w = [Incr (GoInt.len b); DataWrite b]
              /\ result w = Returned io)))
  /\ (connState (modem v) = connected ->
      closing v = false ->
      GoInt.len b <= GoInt.maxAlloc ->
      7 * GoInt.len b <= bufferCount (modem v) ->
      forall cmds : inbox,
        keepThrottled pb b now cmds ->
        Write pb v b now cmds io
        = mkCall (Returned (0, Some ErrWriteTimeout)) []
                 (wokenAt now cmds + Clock.Minute) []).
Proof.
  split.
  - intros cmds w.
    destruct (Write_shape pb v b now cmds io) as [ Ht Hs ]. fold w in Ht, Hs.
    split; [ exact Ht | ].
    destruct Hs as [ (H1 & H2) | (H1 & H2 & _) ]; [ left | right; auto ].
    split; [ exact H1 | ]. intros r Hr. rewrite Hr in H2.
    destruct H2 as [ H | [ H | (H & _) ] ]; inversion H; auto.
  - intros Hs Hc Hb Hge cmds Hk.
    apply notConnected_false in Hs.
    unfold Write, BufferCounter.get. rewrite Hs.
    rewrite (throttle_kept pb v b cmds Hc Hb _ now Hge Hk). reflexivity.
Qed.

(** * The Buffer Count of a session *)













